(** * Agile Monte Carlo cost estimator: a shallow embedding

    The program is one Streamlit script: a sidebar that reads the project
    configuration from widgets, a seeded simulation loop that draws from
    [np.random] and appends one dictionary per trial, and an export of eight
    columns rounded to two decimals.

    Numbers.  Python ints are [Z]; every quantity that the script computes
    with true division or draws from [np.random] is a rational [Q], with the
    arithmetic exact (every finite double is a rational; the rounding of
    double arithmetic is not modelled).  Equality of computed quantities is
    therefore [Qeq], written [==].  The export alone is modelled on binary64
    values, because rounding to two decimals depends on double arithmetic.

    Effects.  [np.random] is a global generator that every draw advances; the
    loop body can raise.  Both are threaded through the monad [M]: a function
    from the generator state to either an exception or a value and the next
    state. *)

From Stdlib Require Import ZArith QArith Qround Qabs List String Bool Lia Lqa Sorted.
From Stdlib Require Import Floats.
Import ListNotations.
Local Open Scope Z_scope.
Local Open Scope Q_scope.

(** ** Python primitives *)

Inductive exn : Set :=
  | ZeroDivisionError
  | ValueError.

Inductive result (A : Type) : Type :=
  | Ok (a : A)
  | Raise (e : exn).
Arguments Ok {A} a.
Arguments Raise {A} e.

(** [max(a, b)]: the first argument is kept unless the second is greater. *)
Definition py_max (a b : Q) : Q :=
  match a ?= b with
  | Lt => b
  | _ => a
  end.

(** [min(a, b)]: the first argument is kept unless the second is smaller. *)
Definition py_min (a b : Q) : Q :=
  match a ?= b with
  | Gt => b
  | _ => a
  end.

(** ** The generator behind [np.random]

    The Mersenne Twister and the algorithms for the standard variates live in
    NumPy, not in this repository.  They are taken as an interface: a state
    type, seeding, and the four standard draws the script's calls reduce to,
    each returning the variate and the advanced state.  The only facts assumed
    are the supports of the standard exponential, uniform and beta variates. *)
Class BitGenerator : Type := {
  RandomState : Type;
  (** the state [np.random.seed(s)] installs *)
  seed_state : Z -> RandomState;
  (** standard normal variate *)
  gauss : RandomState -> Q * RandomState;
  (** standard exponential variate *)
  standard_exponential : RandomState -> Q * RandomState;
  (** uniform variate on the half-open unit interval *)
  random_sample : RandomState -> Q * RandomState;
  (** Beta(a, b) variate *)
  standard_beta : Q -> Q -> RandomState -> Q * RandomState;
  standard_exponential_nonneg :
    forall g, 0 <= fst (standard_exponential g);
  random_sample_range :
    forall g, 0 <= fst (random_sample g) /\ fst (random_sample g) < 1;
  standard_beta_range :
    forall a b g, 0 <= fst (standard_beta a b g) /\ fst (standard_beta a b g) <= 1
}.

(** ** Sidebar: the configuration widgets (lines 17-93) *)

(** What the user has entered in each widget. *)
Record WidgetInputs : Set := {
  in_rate_dev : Z;
  in_rate_qa : Z;
  in_rate_pm : Z;
  in_num_dev : Z;
  in_num_qa : Z;
  in_num_pm : Z;
  in_base_scope : Z;
  in_risk_scope : Z;
  in_risk_velocity : Z;
  in_risk_bugs : Z;
  in_risk_changes : Z;
  in_use_cloud : bool;
  in_cloud_min : Z;
  in_cloud_max : Z;
  in_include_managed_service : bool;
  in_managed_service_pct : Z;
  in_n_simulations : Z
}.

(** [st.sidebar.slider(label, lo, hi, value, step)] only yields values on the
    grid [lo, lo + step, ...] up to [hi]. *)
Definition slider (lo hi step v : Z) : bool :=
  ((lo <=? v) && (v <=? hi) && ((v - lo) mod step =? 0))%Z.

(** The largest integer a Streamlit widget holds: JavaScript's largest safe
    integer, 2^53 - 1. *)
Definition MAX_SAFE_INTEGER : Z := 9007199254740991.

(** [st.sidebar.number_input(label, min_value, value=..)] on integers only
    yields values from [min_value] up to the largest safe integer; without
    [min_value] the lower bound is the smallest safe integer. *)
Definition number_input (min_value : option Z) (v : Z) : bool :=
  match min_value with
  | Some m => ((m <=? v) && (v <=? MAX_SAFE_INTEGER))%Z
  | None => ((- MAX_SAFE_INTEGER <=? v) && (v <=? MAX_SAFE_INTEGER))%Z
  end.

(** The entries the widgets of the sidebar can hold.  The cloud and
    managed-service widgets exist only when their checkbox is ticked. *)
Definition widgets_admit (w : WidgetInputs) : bool :=
  number_input None (in_rate_dev w)
  && number_input None (in_rate_qa w)
  && number_input None (in_rate_pm w)
  && slider 1 4 1 (in_num_dev w)
  && slider 1 4 1 (in_num_qa w)
  && slider 0 2 1 (in_num_pm w)
  && number_input None (in_base_scope w)
  && slider 0 100 1 (in_risk_scope w)
  && slider 0 100 1 (in_risk_velocity w)
  && slider 0 100 1 (in_risk_bugs w)
  && slider 0 100 1 (in_risk_changes w)
  && (if in_use_cloud w
      then number_input (Some 500%Z) (in_cloud_min w)
           && number_input (Some 1000%Z) (in_cloud_max w)
      else true)
  && (if in_include_managed_service w
      then slider 5 50 1 (in_managed_service_pct w)
      else true)
  && slider 1000 10000 1000 (in_n_simulations w).

(** The script's global variables once the sidebar has run. *)
Record Configuration : Set := {
  rate_dev : Z;
  rate_qa : Z;
  rate_pm : Z;
  num_dev : Z;
  num_qa : Z;
  num_pm : Z;
  base_scope : Z;
  risk_scope : Q;
  risk_velocity : Q;
  risk_bugs : Q;
  risk_changes : Q;
  use_cloud : bool;
  cloud_min : Z;
  cloud_max : Z;
  include_managed_service : bool;
  managed_service_pct : Q;
  n_simulations : Z
}.

Definition sidebar (w : WidgetInputs) : Configuration :=
  {| rate_dev := in_rate_dev w;
     rate_qa := in_rate_qa w;
     rate_pm := in_rate_pm w;
     num_dev := in_num_dev w;
     num_qa := in_num_qa w;
     num_pm := in_num_pm w;
     base_scope := in_base_scope w;
     risk_scope := inject_Z (in_risk_scope w) / 100;
     risk_velocity := inject_Z (in_risk_velocity w) / 100;
     risk_bugs := inject_Z (in_risk_bugs w) / 100;
     risk_changes := inject_Z (in_risk_changes w) / 100;
     use_cloud := in_use_cloud w;
     cloud_min := if in_use_cloud w then in_cloud_min w else 0%Z;
     cloud_max := if in_use_cloud w then in_cloud_max w else 0%Z;
     include_managed_service := in_include_managed_service w;
     managed_service_pct :=
       if in_include_managed_service w
       then inject_Z (in_managed_service_pct w) / 100
       else 0;
     n_simulations := in_n_simulations w |}.

(** The estimate shown under the scope entry (lines 38-39). *)
Definition estimated_sprints (c : Configuration) : Q := inject_Z (base_scope c) / 20.
Definition estimated_months (c : Configuration) : Q := estimated_sprints c * (5 # 10).

(** Constants (lines 96-98). *)
Definition DAYS_PER_SPRINT : Q := 10.
Definition WORK_DAYS_PER_MONTH : Q := 20.
Definition BASE_VELOCITY : Q := 20.

(** ** The effect monad: generator state and exceptions *)

Section Simulation.

Context {G : BitGenerator}.

Definition M (A : Type) : Type := RandomState -> result (A * RandomState).

Definition ret {A : Type} (a : A) : M A := fun g => Ok (a, g).

Definition bind {A B : Type} (m : M A) (k : A -> M B) : M B :=
  fun g =>
    match m g with
    | Ok (a, g') => k a g'
    | Raise e => Raise e
    end.

Definition raise {A : Type} (e : exn) : M A := fun _ => Raise e.

(** A standard draw advances the generator and cannot fail. *)
Definition draw (f : RandomState -> Q * RandomState) : M Q :=
  fun g => Ok (f g).

Notation "x <- m ;; k" := (bind m (fun x => k))
  (at level 61, m at next level, right associativity).

(** [x / y] on Python numbers: a zero divisor raises. *)
Definition py_div (x y : Q) : M Q :=
  if Qeq_bool y 0 then raise ZeroDivisionError else ret (x / y).

(** ** The calls into [np.random]

    Each call checks its parameters as NumPy does and turns one standard
    variate into the requested one by location and scale. *)

(** [np.random.seed(s)]: whatever the generator held is replaced. *)
Definition np_random_seed (s : Z) : M unit :=
  fun _ => Ok (tt, seed_state s).

(** [np.random.normal(loc, scale)]; a negative [scale] is a [ValueError]. *)
Definition np_random_normal (loc scale : Q) : M Q :=
  if Qle_bool 0 scale
  then z <- draw gauss ;; ret (loc + scale * z)
  else raise ValueError.

(** [np.random.exponential(scale)]; a negative [scale] is a [ValueError]. *)
Definition np_random_exponential (scale : Q) : M Q :=
  if Qle_bool 0 scale
  then e <- draw standard_exponential ;; ret (scale * e)
  else raise ValueError.

(** [np.random.beta(a, b)]; [a] and [b] must be positive. *)
Definition np_random_beta (a b : Q) : M Q :=
  if Qle_bool a 0 || Qle_bool b 0
  then raise ValueError
  else draw (standard_beta a b).

(** [np.random.uniform(low, high)]; the bounds are not checked. *)
Definition np_random_uniform (low high : Q) : M Q :=
  u <- draw random_sample ;; ret (low + (high - low) * u).

(** ** One pass through the loop body (lines 110-153) *)

(** The local variables of the loop body, as they stand when the trial's
    dictionary is built. *)
Record Locals : Set := {
  scope_volatility : Q;
  scope_change : Q;
  final_scope : Q;
  vel_std : Q;
  velocity : Q;
  sprints : Q;
  total_days : Q;
  duration_months : Q;
  labor_dev : Q;
  labor_qa : Q;
  labor_pm : Q;
  labor_cost : Q;
  rework_factor : Q;
  rework_cost : Q;
  monthly_cloud : Q;
  cloud_cost : Q;
  tco_one_off : Q;
  managed_service_annual : Q;
  tco_total : Q;
  target_markup : Q;
  revenue_one_off : Q;
  profit : Q;
  profit_margin : Q
}.

Definition trial_body (c : Configuration) : M Locals :=
  (* 1. final scope *)
  scope_volatility <- np_random_normal 0 (risk_scope c) ;;
  b25 <- np_random_beta 2 5 ;;
  let scope_change := b25 * risk_changes c in
  let final_scope0 := inject_Z (base_scope c) * (1 + scope_volatility + scope_change) in
  let final_scope := py_max 100 final_scope0 in
  (* 2. velocity *)
  let vel_std := BASE_VELOCITY * risk_velocity c in
  v <- np_random_normal BASE_VELOCITY vel_std ;;
  let velocity := py_max 5 v in
  (* 3. duration *)
  sprints <- py_div final_scope velocity ;;
  let total_days := sprints * DAYS_PER_SPRINT in
  duration_months <- py_div total_days WORK_DAYS_PER_MONTH ;;
  (* 4. labor cost *)
  let labor_dev := inject_Z (num_dev c) * inject_Z (rate_dev c) * total_days in
  let labor_qa := inject_Z (num_qa c) * inject_Z (rate_qa c) * total_days in
  let labor_pm := inject_Z (num_pm c) * inject_Z (rate_pm c) * total_days in
  let labor_cost := labor_dev + labor_qa + labor_pm in
  (* 5. rework cost *)
  b38 <- np_random_beta 3 8 ;;
  ex <- np_random_exponential (risk_bugs c) ;;
  let rework_factor0 := b38 + ex in
  let rework_factor := py_min rework_factor0 1 in
  let rework_cost := rework_factor * labor_cost in
  (* 6. cloud cost *)
  monthly_cloud <- np_random_uniform (inject_Z (cloud_min c)) (inject_Z (cloud_max c)) ;;
  let cloud_cost := monthly_cloud * duration_months in
  (* 7. one-off cost *)
  let tco_one_off := labor_cost + rework_cost + cloud_cost in
  (* 8. managed service *)
  let managed_service_annual :=
    if include_managed_service c then managed_service_pct c * tco_one_off else 0 in
  (* 9. total cost of ownership *)
  amortised <- py_div (managed_service_annual * duration_months) 12 ;;
  let tco_total := tco_one_off + amortised in
  (* 10. revenue and profit *)
  let target_markup := 12 # 10 in
  let revenue_one_off := tco_one_off * target_markup in
  let profit := revenue_one_off - tco_total in
  profit_margin <-
    match 0 ?= revenue_one_off with
    | Lt => ratio <- py_div profit revenue_one_off ;; ret (ratio * 100)
    | _ => ret 0
    end ;;
  ret {| scope_volatility := scope_volatility;
         scope_change := scope_change;
         final_scope := final_scope;
         vel_std := vel_std;
         velocity := velocity;
         sprints := sprints;
         total_days := total_days;
         duration_months := duration_months;
         labor_dev := labor_dev;
         labor_qa := labor_qa;
         labor_pm := labor_pm;
         labor_cost := labor_cost;
         rework_factor := rework_factor;
         rework_cost := rework_cost;
         monthly_cloud := monthly_cloud;
         cloud_cost := cloud_cost;
         tco_one_off := tco_one_off;
         managed_service_annual := managed_service_annual;
         tco_total := tco_total;
         target_markup := target_markup;
         revenue_one_off := revenue_one_off;
         profit := profit;
         profit_margin := profit_margin |}.

(** ** The stored results (lines 156-175) *)

(** One dictionary of [results]; [Profit_Margin_pct] is the key
    ['Profit_Margin_%']. *)
Record TrialRecord : Set := {
  Scope_SP : Q;
  Velocity_SP : Q;
  Sprints : Q;
  Duration_Days : Q;
  Duration_Months : Q;
  Labor_Cost : Q;
  Rework_Cost : Q;
  Cloud_Cost : Q;
  Managed_Service_Annual : Q;
  TCO_OneOff : Q;
  TCO_Total : Q;
  Revenue : Q;
  Profit : Q;
  Profit_Margin_pct : Q;
  Risk_Scope : Q;
  Risk_Velocity : Q;
  Risk_Bugs : Q;
  Risk_Changes : Q
}.

Definition store_results (c : Configuration) (l : Locals) : TrialRecord :=
  {| Scope_SP := final_scope l;
     Velocity_SP := velocity l;
     Sprints := sprints l;
     Duration_Days := total_days l;
     Duration_Months := duration_months l;
     Labor_Cost := labor_cost l;
     Rework_Cost := rework_cost l;
     Cloud_Cost := cloud_cost l;
     Managed_Service_Annual := managed_service_annual l;
     TCO_OneOff := tco_one_off l;
     TCO_Total := tco_total l;
     Revenue := revenue_one_off l;
     Profit := profit l;
     Profit_Margin_pct := profit_margin l;
     Risk_Scope := risk_scope c;
     Risk_Velocity := risk_velocity c;
     Risk_Bugs := risk_bugs c;
     Risk_Changes := risk_changes c |}.

(** The data frame built from [results]: its rows in generation order. *)
Definition DataFrame : Set := list TrialRecord.

(** ** The simulation loop (lines 106-177) *)

(** [for i in range(n)]: each pass appends its dictionary to [results]. *)
Fixpoint trial_loop (c : Configuration) (n : nat) (results : list TrialRecord)
  : M (list TrialRecord) :=
  match n with
  | O => ret results
  | S n' =>
      l <- trial_body c ;;
      trial_loop c n' (results ++ [store_results c l])
  end.

(** Seeding with 42, the loop over [range(n_simulations)], the data frame. *)
Definition run_simulation (c : Configuration) : M DataFrame :=
  _ <- np_random_seed 42 ;;
  results <- trial_loop c (Z.to_nat (n_simulations c)) [] ;;
  ret results.

(** ** The script run (lines 103-178) *)

(** What survives from one run of the script to the next: the process-wide
    generator and the session's stored data frame. *)
Record Session : Type := {
  np_random : RandomState;
  session_df : option DataFrame
}.

(** One run of the script: the simulation runs only when the button was
    pressed, and then replaces the stored data frame. *)
Definition script (w : WidgetInputs) (button : bool) (s : Session) : result Session :=
  let c := sidebar w in
  if button then
    match run_simulation c (np_random s) with
    | Ok (df, g) => Ok {| np_random := g; session_df := Some df |}
    | Raise e => Raise e
    end
  else Ok s.

End Simulation.

(** ** The export (lines 247-250)

    The data frame holds binary64 values and [round(2)] works on them in
    double arithmetic.  What it returns depends on that arithmetic, so the
    export is modelled on the stored doubles themselves. *)

Module Stored.

(** One row of the data frame as it is stored: the dictionary of a trial,
    every value a binary64 number. *)
Record Row : Set := {
  Scope_SP : float;
  Velocity_SP : float;
  Sprints : float;
  Duration_Days : float;
  Duration_Months : float;
  Labor_Cost : float;
  Rework_Cost : float;
  Cloud_Cost : float;
  Managed_Service_Annual : float;
  TCO_OneOff : float;
  TCO_Total : float;
  Revenue : float;
  Profit : float;
  Profit_Margin_pct : float;
  Risk_Scope : float;
  Risk_Velocity : float;
  Risk_Bugs : float;
  Risk_Changes : float
}.

End Stored.

(** The dictionary of one trial as key-value pairs, in insertion order. *)
Definition items (r : Stored.Row) : list (string * float) :=
  [ ("Scope_SP", Stored.Scope_SP r);
    ("Velocity_SP", Stored.Velocity_SP r);
    ("Sprints", Stored.Sprints r);
    ("Duration_Days", Stored.Duration_Days r);
    ("Duration_Months", Stored.Duration_Months r);
    ("Labor_Cost", Stored.Labor_Cost r);
    ("Rework_Cost", Stored.Rework_Cost r);
    ("Cloud_Cost", Stored.Cloud_Cost r);
    ("Managed_Service_Annual", Stored.Managed_Service_Annual r);
    ("TCO_OneOff", Stored.TCO_OneOff r);
    ("TCO_Total", Stored.TCO_Total r);
    ("Revenue", Stored.Revenue r);
    ("Profit", Stored.Profit r);
    ("Profit_Margin_%", Stored.Profit_Margin_pct r);
    ("Risk_Scope", Stored.Risk_Scope r);
    ("Risk_Velocity", Stored.Risk_Velocity r);
    ("Risk_Bugs", Stored.Risk_Bugs r);
    ("Risk_Changes", Stored.Risk_Changes r) ]%string.

(** [pd.DataFrame(results).columns]: the keys of the dictionaries.  A frame
    built from an empty list has no column at all. *)
Definition frame_columns (df : list Stored.Row) : list string :=
  match df with
  | [] => []
  | r :: _ => map fst (items r)
  end.

(** The value of column [k] in one row. *)
Fixpoint lookup (k : string) (kvs : list (string * float)) : option float :=
  match kvs with
  | [] => None
  | (k', v) :: rest => if String.eqb k k' then Some v else lookup k rest
  end.

(** The columns named in the export, in the order written. *)
Definition export_columns : list string :=
  [ "Duration_Months"; "TCO_OneOff"; "Managed_Service_Annual"; "TCO_Total";
    "Profit"; "Profit_Margin_%"; "Scope_SP"; "Sprints" ]%string.

(** 2^52: from here on every binary64 number is an integer. *)
Definition two52 : float := 4503599627370496%float.

(** [rint]: the nearest integer, ties to the even one, in binary64.  Below
    2^52 in magnitude, adding and subtracting 2^52 rounds to the integer; the
    sign of the argument is kept. *)
Definition rint (y : float) : float :=
  if (y =? 0)%float then y
  else if (y <? 0)%float then
    (if (- two52 <? y)%float then (- ((- y + two52) - two52))%float else y)
  else
    (if (y <? two52)%float then ((y + two52) - two52)%float else y).

(** [round(2)] on one value, as NumPy computes it: times 100, [rint], over
    100, each step in binary64. *)
Definition round2 (x : float) : float := (rint (x * 100) / 100)%float.

(** [df[cols]] on one row: the values of [cols] in that order. *)
Fixpoint select (cols : list string) (r : Stored.Row) : option (list float) :=
  match cols with
  | [] => Some []
  | k :: rest =>
      match lookup k (items r), select rest r with
      | Some v, Some vs => Some (v :: vs)
      | _, _ => None
      end
  end.

Fixpoint select_rows (cols : list string) (df : list Stored.Row)
  : option (list (list float)) :=
  match df with
  | [] => Some []
  | r :: rest =>
      match select cols r, select_rows cols rest with
      | Some vs, Some rows => Some (vs :: rows)
      | _, _ => None
      end
  end.

(** The exported table: the header line and one line of values per trial.
    Writing the values out as text is pandas' work and is not modelled. *)
Record Csv : Set := {
  header : list string;
  rows : list (list float)
}.

(** [df[[...]].round(2).to_csv(index=False)]; [None] is the [KeyError] of a
    column that the frame does not have. *)
Definition export (df : list Stored.Row) : option Csv :=
  if forallb (fun k => existsb (String.eqb k) (frame_columns df)) export_columns
  then
    match select_rows export_columns df with
    | Some selected =>
        Some {| header := export_columns;
                rows := map (map round2) selected |}
    | None => None
    end
  else None.


(** ** The displayed results (lines 183-243)

    The statistics are computed by pandas, not by this repository.  They are
    written out as pandas defines them: the median and the quantiles on the
    sorted column, the chance of profit as a share of rows, and Pearson's
    correlation from the deviations of the two columns.  The plotting code of
    lines 199-225 is not modelled: these definitions give the figures, not
    whether the page gets as far as showing them. *)

(** Ascending order of a column, by insertion. *)
Fixpoint insert_sorted (x : Q) (xs : list Q) : list Q :=
  match xs with
  | [] => [x]
  | y :: ys => if Qle_bool x y then x :: xs else y :: insert_sorted x ys
  end.

Definition sort_values (xs : list Q) : list Q := fold_right insert_sorted [] xs.

(** [Series.median()]: the middle value of the sorted column, or the mean of
    the two middle values; [None] stands for the NaN of an empty column. *)
Definition median (xs : list Q) : option Q :=
  match xs with
  | [] => None
  | _ =>
      let s := sort_values xs in
      let n := List.length xs in
      if Nat.even n
      then Some ((nth (n / 2 - 1) s 0 + nth (n / 2) s 0) / 2)
      else Some (nth (n / 2) s 0)
  end.

(** Linear interpolation in a sorted column [s] at the fractional position
    [h]: between the value at the floor of [h] and the next one. *)
Definition interpolate (s : list Q) (h : Q) : Q :=
  let lo := Z.to_nat (Qfloor h) in
  let hi := Nat.min (S lo) (List.length s - 1) in
  nth lo s 0 + (nth hi s 0 - nth lo s 0) * (h - inject_Z (Qfloor h)).

(** [Series.quantile(q)] with the default linear interpolation: the value at
    position [(n - 1) * q] of the sorted column. *)
Definition quantile (q : Q) (xs : list Q) : option Q :=
  match xs with
  | [] => None
  | _ =>
      Some (interpolate (sort_values xs)
              (inject_Z (Z.of_nat (List.length xs - 1)) * q))
  end.

(** [(df['Profit'] > 0).mean() * 100]: the share of rows with a profit, as a
    percentage.  A frame without rows has no [Profit] column; [None] stands
    for the [KeyError] that [df['Profit']] then raises. *)
Definition chance_of_profit (df : list TrialRecord) : option Q :=
  match df with
  | [] => None
  | _ =>
      let wins := filter (fun r => negb (Qle_bool (Profit r) 0)) df in
      Some (inject_Z (Z.of_nat (List.length wins))
            / inject_Z (Z.of_nat (List.length df)) * 100)
  end.

(** The sum and the mean of a column. *)
Definition column_sum (xs : list Q) : Q := fold_right Qplus 0 xs.

Definition column_mean (xs : list Q) : Q :=
  column_sum xs / inject_Z (Z.of_nat (List.length xs)).

(** Sum of the products of the deviations of two columns from their means. *)
Definition codeviation (xs ys : list Q) : Q :=
  column_sum (map (fun p => (fst p - column_mean xs) * (snd p - column_mean ys))
                  (combine xs ys)).

(** [abs(r) > t] for Pearson's [r] of two columns, [t] not negative: [r] is
    the codeviation over the square root of the product of the two columns'
    own codeviations, so the test is decided on the squares.  When a column
    has no spread [r] is NaN and the comparison is false. *)
Definition abs_corr_exceeds (t : Q) (xs ys : list Q) : bool :=
  let sxx := codeviation xs xs in
  let syy := codeviation ys ys in
  let sxy := codeviation xs ys in
  if Qeq_bool (sxx * syy) 0 then false
  else negb (Qle_bool (sxy * sxy) (t * t * (sxx * syy))).

(** The risk columns tested for the "highest impact" line, each with the name
    it is shown under (['Risk_'] removed). *)
Definition risk_columns : list (string * (TrialRecord -> Q)) :=
  [ ("Bugs", Risk_Bugs); ("Scope", Risk_Scope);
    ("Velocity", Risk_Velocity); ("Changes", Risk_Changes) ]%string.

Definition top_risks (df : list TrialRecord) : list string :=
  map fst
    (filter (fun kc => abs_corr_exceeds (2 # 10) (map TCO_Total df) (map (snd kc) df))
            risk_columns).

(** The figures computed for a stored data frame.  For a frame without rows
    they are all [None]: such a frame has no column, and the first
    [df['Scope_SP']] raises [KeyError]. *)
Record Report : Set := {
  median_scope : option Q;
  median_duration : option Q;
  median_tco : option Q;
  median_margin : option Q;
  p80_tco : option Q;
  chance_of_profit_pct : option Q;
  p90_duration : option Q;
  highest_impact : list string
}.

Definition report (df : list TrialRecord) : Report :=
  {| median_scope := median (map Scope_SP df);
     median_duration := median (map Duration_Months df);
     median_tco := median (map TCO_Total df);
     median_margin := median (map Profit_Margin_pct df);
     p80_tco := quantile (8 # 10) (map TCO_Total df);
     chance_of_profit_pct := chance_of_profit df;
     p90_duration := quantile (9 # 10) (map Duration_Months df);
     highest_impact := top_risks df |}.

(** ** A reference generator

    A small linear congruential generator that implements [BitGenerator], so
    that the model can be run on concrete inputs.  It stands in for NumPy's
    generator only as far as the interface goes: it makes the standard draws
    from one uniform variate and makes no claim about their distributions. *)
Module Reference.

Definition modulus : positive := 2147483648.

Definition next (g : Z) : Z := ((1103515245 * g + 12345) mod Zpos modulus)%Z.

Definition unit_variate (g : Z) : Q := Qmake (next g) modulus.

Definition ref_gauss (g : Z) : Q * Z := (6 * unit_variate g - 3, next g).
Definition ref_exponential (g : Z) : Q * Z := (4 * unit_variate g, next g).
Definition ref_sample (g : Z) : Q * Z := (unit_variate g, next g).
Definition ref_beta (a b : Q) (g : Z) : Q * Z := (unit_variate g, next g).

Lemma unit_variate_range (g : Z) : 0 <= unit_variate g /\ unit_variate g < 1.
Proof.
  unfold unit_variate, Qle, Qlt; cbn [Qnum Qden].
  pose proof (Z.mod_pos_bound (1103515245 * g + 12345) (Zpos modulus) eq_refl) as Hb.
  fold (next g) in Hb.
  rewrite !Z.mul_1_r, Z.mul_1_l. lia.
Qed.

Lemma ref_exponential_nonneg (g : Z) : 0 <= fst (ref_exponential g).
Proof.
  simpl. pose proof (unit_variate_range g). lra.
Qed.

Lemma ref_beta_range (a b : Q) (g : Z) :
  0 <= fst (ref_beta a b g) /\ fst (ref_beta a b g) <= 1.
Proof.
  simpl. pose proof (unit_variate_range g). lra.
Qed.

#[export] Instance generator : BitGenerator := {|
  RandomState := Z;
  seed_state := fun s => s;
  gauss := ref_gauss;
  standard_exponential := ref_exponential;
  random_sample := ref_sample;
  standard_beta := ref_beta;
  standard_exponential_nonneg := ref_exponential_nonneg;
  random_sample_range := unit_variate_range;
  standard_beta_range := ref_beta_range
|}.

End Reference.

(** * Vocabulary of the properties *)

(** The scales handed to [np.random] are not negative. *)
Definition scales_nonneg (c : Configuration) : Prop :=
  0 <= risk_scope c /\ 0 <= risk_velocity c /\ 0 <= risk_bugs c.

(** An integer in the range a widget holds. *)
Definition safe_integer (v : Z) : Prop :=
  (- MAX_SAFE_INTEGER <= v <= MAX_SAFE_INTEGER)%Z.

(** The four risk levels lie in [0,1]. *)
Definition risk_levels_unit (c : Configuration) : Prop :=
  (0 <= risk_scope c /\ risk_scope c <= 1) /\
  (0 <= risk_velocity c /\ risk_velocity c <= 1) /\
  (0 <= risk_bugs c /\ risk_bugs c <= 1) /\
  (0 <= risk_changes c /\ risk_changes c <= 1).

(** The entries the widgets show when the page loads. *)
Definition default_inputs : WidgetInputs :=
  {| in_rate_dev := 400; in_rate_qa := 350; in_rate_pm := 500;
     in_num_dev := 2; in_num_qa := 2; in_num_pm := 1;
     in_base_scope := 500;
     in_risk_scope := 30; in_risk_velocity := 25;
     in_risk_bugs := 35; in_risk_changes := 20;
     in_use_cloud := true; in_cloud_min := 1000; in_cloud_max := 5000;
     in_include_managed_service := true; in_managed_service_pct := 15;
     in_n_simulations := 5000 |}.

(** The valid configurations, as the specification's input interface lists
    them.  The script itself has no such check. *)
Definition valid_configuration (c : Configuration) : Prop :=
  (0 <= rate_dev c)%Z /\ (0 <= rate_qa c)%Z /\ (0 <= rate_pm c)%Z /\
  (1 <= num_dev c <= 4)%Z /\ (1 <= num_qa c <= 4)%Z /\ (0 <= num_pm c <= 2)%Z /\
  (0 < base_scope c)%Z /\
  risk_levels_unit c /\
  (cloud_min c <= cloud_max c)%Z /\
  (include_managed_service c = true ->
   5 # 100 <= managed_service_pct c /\ managed_service_pct c <= 50 # 100) /\
  (1000 <= n_simulations c <= 10000)%Z.

(** The sidebar with other entries in the rate and scope fields. *)
Definition set_rates_and_scope (rd rq rp bs : Z) (w : WidgetInputs) : WidgetInputs :=
  {| in_rate_dev := rd; in_rate_qa := rq; in_rate_pm := rp;
     in_num_dev := in_num_dev w; in_num_qa := in_num_qa w; in_num_pm := in_num_pm w;
     in_base_scope := bs;
     in_risk_scope := in_risk_scope w; in_risk_velocity := in_risk_velocity w;
     in_risk_bugs := in_risk_bugs w; in_risk_changes := in_risk_changes w;
     in_use_cloud := in_use_cloud w;
     in_cloud_min := in_cloud_min w; in_cloud_max := in_cloud_max w;
     in_include_managed_service := in_include_managed_service w;
     in_managed_service_pct := in_managed_service_pct w;
     in_n_simulations := in_n_simulations w |}.

(** The sidebar with the cloud box ticked and other entries in its fields. *)
Definition set_cloud (lo hi : Z) (w : WidgetInputs) : WidgetInputs :=
  {| in_rate_dev := in_rate_dev w; in_rate_qa := in_rate_qa w;
     in_rate_pm := in_rate_pm w;
     in_num_dev := in_num_dev w; in_num_qa := in_num_qa w; in_num_pm := in_num_pm w;
     in_base_scope := in_base_scope w;
     in_risk_scope := in_risk_scope w; in_risk_velocity := in_risk_velocity w;
     in_risk_bugs := in_risk_bugs w; in_risk_changes := in_risk_changes w;
     in_use_cloud := true;
     in_cloud_min := lo; in_cloud_max := hi;
     in_include_managed_service := in_include_managed_service w;
     in_managed_service_pct := in_managed_service_pct w;
     in_n_simulations := in_n_simulations w |}.

(** The default entries with a developer rate of -1000 a day. *)
Definition negative_rate_inputs : WidgetInputs :=
  set_rates_and_scope (-1000) 350 500 500 default_inputs.

(** Scenario A of the specification: no risk, no cloud, no managed service,
    entered through the sidebar with [n] simulations. *)
Definition scenario_A_inputs (n : Z) : WidgetInputs :=
  {| in_rate_dev := 400; in_rate_qa := 350; in_rate_pm := 500;
     in_num_dev := 2; in_num_qa := 2; in_num_pm := 1;
     in_base_scope := 500;
     in_risk_scope := 0; in_risk_velocity := 0;
     in_risk_bugs := 0; in_risk_changes := 0;
     in_use_cloud := false; in_cloud_min := 1000; in_cloud_max := 5000;
     in_include_managed_service := false; in_managed_service_pct := 15;
     in_n_simulations := n |}.

Definition scenario_A (n : Z) : Configuration := sidebar (scenario_A_inputs n).

(** The default entries with all rates at 0 and no cloud: nothing is earned. *)
Definition zero_rate_inputs : WidgetInputs :=
  set_rates_and_scope 0 0 0 500 (scenario_A_inputs 1000).

(** Rates, head counts and managed-service share are not negative and the
    cloud range is in order. *)
Definition nonneg_inputs (c : Configuration) : Prop :=
  (0 <= rate_dev c)%Z /\ (0 <= rate_qa c)%Z /\ (0 <= rate_pm c)%Z /\
  (0 <= num_dev c)%Z /\ (0 <= num_qa c)%Z /\ (0 <= num_pm c)%Z /\
  (0 <= cloud_min c <= cloud_max c)%Z /\
  0 <= managed_service_pct c.

(** What the team costs for one working day. *)
Definition daily_rate (c : Configuration) : Z :=
  (num_dev c * rate_dev c + num_qa c * rate_qa c + num_pm c * rate_pm c)%Z.

(** The managed-service share that is charged: none when the box is
    unticked. *)
Definition effective_pct (c : Configuration) : Q :=
  if include_managed_service c then managed_service_pct c else 0.

(** The configuration with another number of simulations. *)
Definition with_n_simulations (n : Z) (c : Configuration) : Configuration :=
  {| rate_dev := rate_dev c; rate_qa := rate_qa c; rate_pm := rate_pm c;
     num_dev := num_dev c; num_qa := num_qa c; num_pm := num_pm c;
     base_scope := base_scope c;
     risk_scope := risk_scope c; risk_velocity := risk_velocity c;
     risk_bugs := risk_bugs c; risk_changes := risk_changes c;
     use_cloud := use_cloud c;
     cloud_min := cloud_min c; cloud_max := cloud_max c;
     include_managed_service := include_managed_service c;
     managed_service_pct := managed_service_pct c;
     n_simulations := n |}.

(** The default entries with the cloud range entered upside down. *)
Definition reversed_cloud_inputs : WidgetInputs := set_cloud 3000 1000 default_inputs.

(** The default entries with no scope uncertainty. *)
Definition no_scope_risk_inputs : WidgetInputs :=
  {| in_rate_dev := 400; in_rate_qa := 350; in_rate_pm := 500;
     in_num_dev := 2; in_num_qa := 2; in_num_pm := 1;
     in_base_scope := 500;
     in_risk_scope := 0; in_risk_velocity := 25;
     in_risk_bugs := 35; in_risk_changes := 20;
     in_use_cloud := true; in_cloud_min := 1000; in_cloud_max := 5000;
     in_include_managed_service := true; in_managed_service_pct := 15;
     in_n_simulations := 5000 |}.

(** A configuration no widget can produce: a negative scope risk. *)
Definition negative_risk_configuration : Configuration :=
  {| rate_dev := 400; rate_qa := 350; rate_pm := 500;
     num_dev := 2; num_qa := 2; num_pm := 1;
     base_scope := 500;
     risk_scope := - (1 # 10); risk_velocity := 25 # 100;
     risk_bugs := 35 # 100; risk_changes := 20 # 100;
     use_cloud := false; cloud_min := 0; cloud_max := 0;
     include_managed_service := false; managed_service_pct := 0;
     n_simulations := 1000 |}.

(** Two rows as a run with a managed service at 15% stores them: a project
    of 12.5 months, which pays, and one of 25 months, which does not. *)
Definition profit_row : TrialRecord :=
  {| Scope_SP := 500; Velocity_SP := 20; Sprints := 25;
     Duration_Days := 250; Duration_Months := 25 # 2;
     Labor_Cost := 500000; Rework_Cost := 100000; Cloud_Cost := 0;
     Managed_Service_Annual := 90000;
     TCO_OneOff := 600000; TCO_Total := 693750;
     Revenue := 720000; Profit := 26250; Profit_Margin_pct := 175 # 48;
     Risk_Scope := 0; Risk_Velocity := 0; Risk_Bugs := 0; Risk_Changes := 0 |}.

Definition loss_row : TrialRecord :=
  {| Scope_SP := 1000; Velocity_SP := 20; Sprints := 50;
     Duration_Days := 500; Duration_Months := 25;
     Labor_Cost := 1000000; Rework_Cost := 200000; Cloud_Cost := 0;
     Managed_Service_Annual := 180000;
     TCO_OneOff := 1200000; TCO_Total := 1575000;
     Revenue := 1440000; Profit := - 135000; Profit_Margin_pct := - (75 # 8);
     Risk_Scope := 0; Risk_Velocity := 0; Risk_Bugs := 0; Risk_Changes := 0 |}.


Section Facts.

Context {G : BitGenerator}.

(** What one pass through the loop body leaves in its local variables, given
    the six draws it made: each field restates one assignment of the body. *)
Record trial_facts (c : Configuration) (l : Locals) (z1 b25 z2 b38 e u : Q) : Prop := {
  tf_z1_draw : exists g0, z1 = fst (gauss g0);
  tf_b25_draw : exists g0, b25 = fst (standard_beta 2 5 g0);
  tf_z2_draw : exists g0, z2 = fst (gauss g0);
  tf_b38_draw : exists g0, b38 = fst (standard_beta 3 8 g0);
  tf_e_draw : exists g0, e = fst (standard_exponential g0);
  tf_u_draw : exists g0, u = fst (random_sample g0);
  tf_b25 : 0 <= b25 /\ b25 <= 1;
  tf_b38 : 0 <= b38 /\ b38 <= 1;
  tf_e : 0 <= e;
  tf_u : 0 <= u /\ u < 1;
  tf_scope_volatility : scope_volatility l = 0 + risk_scope c * z1;
  tf_scope_change : scope_change l = b25 * risk_changes c;
  tf_final_scope :
    final_scope l =
    py_max 100 (inject_Z (base_scope c) * (1 + scope_volatility l + scope_change l));
  tf_vel_std : vel_std l = BASE_VELOCITY * risk_velocity c;
  tf_velocity : velocity l = py_max 5 (BASE_VELOCITY + vel_std l * z2);
  tf_sprints : sprints l = final_scope l / velocity l;
  tf_total_days : total_days l = sprints l * DAYS_PER_SPRINT;
  tf_duration_months : duration_months l = total_days l / WORK_DAYS_PER_MONTH;
  tf_labor_dev : labor_dev l = inject_Z (num_dev c) * inject_Z (rate_dev c) * total_days l;
  tf_labor_qa : labor_qa l = inject_Z (num_qa c) * inject_Z (rate_qa c) * total_days l;
  tf_labor_pm : labor_pm l = inject_Z (num_pm c) * inject_Z (rate_pm c) * total_days l;
  tf_labor_cost : labor_cost l = labor_dev l + labor_qa l + labor_pm l;
  tf_rework_factor : rework_factor l = py_min (b38 + risk_bugs c * e) 1;
  tf_rework_cost : rework_cost l = rework_factor l * labor_cost l;
  tf_monthly_cloud :
    monthly_cloud l =
    inject_Z (cloud_min c) + (inject_Z (cloud_max c) - inject_Z (cloud_min c)) * u;
  tf_cloud_cost : cloud_cost l = monthly_cloud l * duration_months l;
  tf_tco_one_off : tco_one_off l = labor_cost l + rework_cost l + cloud_cost l;
  tf_managed_service_annual :
    managed_service_annual l =
    if include_managed_service c then managed_service_pct c * tco_one_off l else 0;
  tf_tco_total :
    tco_total l = tco_one_off l + managed_service_annual l * duration_months l / 12;
  tf_target_markup : target_markup l = 12 # 10;
  tf_revenue_one_off : revenue_one_off l = tco_one_off l * target_markup l;
  tf_profit : profit l = revenue_one_off l - tco_total l;
  tf_profit_margin :
    profit_margin l =
    match 0 ?= revenue_one_off l with
    | Lt => profit l / revenue_one_off l * 100
    | _ => 0
    end
}.

(** A stored row together with the pass through the loop body that made it. *)
Definition row_facts (c : Configuration) (r : TrialRecord) : Prop :=
  exists l z1 b25 z2 b38 e u,
    r = store_results c l /\ trial_facts c l z1 b25 z2 b38 e u.

End Facts.

(** * Properties *)

(** ** Python primitives *)

Lemma py_max_lb (a b : Q) : a <= py_max a b.
Proof.
  unfold py_max. destruct (a ?= b) eqn:E; try apply Qle_refl.
  rewrite <- Qlt_alt in E. apply Qlt_le_weak, E.
Qed.

Lemma py_max_eq_l (a b : Q) : b <= a -> py_max a b = a.
Proof.
  intros H. unfold py_max. destruct (a ?= b) eqn:E; try reflexivity.
  rewrite <- Qlt_alt in E. lra.
Qed.

Lemma py_max_eq_r (a b : Q) : a < b -> py_max a b = b.
Proof.
  intros H. unfold py_max. rewrite Qlt_alt in H. now rewrite H.
Qed.

Lemma py_min_le_r (a b : Q) : py_min a b <= b.
Proof.
  unfold py_min. destruct (a ?= b) eqn:E; try apply Qle_refl.
  - apply Qeq_alt in E. rewrite E. apply Qle_refl.
  - rewrite <- Qlt_alt in E. apply Qlt_le_weak, E.
Qed.

Lemma py_min_le_l (a b : Q) : py_min a b <= a.
Proof.
  unfold py_min. destruct (a ?= b) eqn:E; try apply Qle_refl.
  rewrite <- Qgt_alt in E. apply Qlt_le_weak, E.
Qed.

Lemma py_min_eq_l (a b : Q) : a <= b -> py_min a b = a.
Proof.
  intros H. unfold py_min. destruct (a ?= b) eqn:E; try reflexivity.
  rewrite <- Qgt_alt in E. lra.
Qed.

Lemma py_min_glb (a b x : Q) : x <= a -> x <= b -> x <= py_min a b.
Proof.
  intros Ha Hb. unfold py_min. destruct (a ?= b); assumption.
Qed.

(** ** Running the monad *)

Section Runs.

Context {G : BitGenerator}.

Lemma bind_ok {A B : Type} (m : M A) (k : A -> M B) (g g' : RandomState) (a : A) :
  m g = Ok (a, g') -> bind m k g = k a g'.
Proof.
  intros H. unfold bind. now rewrite H.
Qed.

Lemma bind_raise {A B : Type} (m : M A) (k : A -> M B) (g : RandomState) (e : exn) :
  m g = Raise e -> bind m k g = Raise e.
Proof.
  intros H. unfold bind. now rewrite H.
Qed.

Lemma py_div_ok (x y : Q) (g : RandomState) :
  ~ y == 0 -> py_div x y g = Ok (x / y, g).
Proof.
  intros H. unfold py_div.
  destruct (Qeq_bool y 0) eqn:E; [|reflexivity].
  apply Qeq_bool_eq in E. contradiction.
Qed.

Lemma np_random_normal_ok (loc scale : Q) (g : RandomState) :
  0 <= scale ->
  np_random_normal loc scale g = Ok (loc + scale * fst (gauss g), snd (gauss g)).
Proof.
  intros H. unfold np_random_normal.
  apply Qle_bool_iff in H. rewrite H.
  unfold bind, draw, ret. now destruct (gauss g).
Qed.

Lemma np_random_exponential_ok (scale : Q) (g : RandomState) :
  0 <= scale ->
  np_random_exponential scale g =
  Ok (scale * fst (standard_exponential g), snd (standard_exponential g)).
Proof.
  intros H. unfold np_random_exponential.
  apply Qle_bool_iff in H. rewrite H.
  unfold bind, draw, ret. now destruct (standard_exponential g).
Qed.

Lemma np_random_beta_ok (a b : Q) (g : RandomState) :
  0 < a -> 0 < b ->
  np_random_beta a b g = Ok (fst (standard_beta a b g), snd (standard_beta a b g)).
Proof.
  intros Ha Hb. unfold np_random_beta.
  assert (Qle_bool a 0 = false) as ->.
  { destruct (Qle_bool a 0) eqn:E; [|reflexivity].
    apply Qle_bool_iff in E. lra. }
  assert (Qle_bool b 0 = false) as ->.
  { destruct (Qle_bool b 0) eqn:E; [|reflexivity].
    apply Qle_bool_iff in E. lra. }
  unfold draw. simpl. now destruct (standard_beta a b g).
Qed.

Lemma np_random_uniform_ok (low high : Q) (g : RandomState) :
  np_random_uniform low high g =
  Ok (low + (high - low) * fst (random_sample g), snd (random_sample g)).
Proof.
  unfold np_random_uniform, bind, draw, ret. now destruct (random_sample g).
Qed.

End Runs.

Section TrialFacts.

Context {G : BitGenerator}.

Lemma margin_ok (p rev : Q) (g : RandomState) :
  (match 0 ?= rev with
   | Lt => bind (py_div p rev) (fun ratio => ret (ratio * 100))
   | _ => ret 0
   end) g
  = Ok (match 0 ?= rev with Lt => p / rev * 100 | _ => 0 end, g).
Proof.
  destruct (0 ?= rev) eqn:E; try reflexivity.
  rewrite <- Qlt_alt in E.
  erewrite bind_ok by (apply py_div_ok; lra). reflexivity.
Qed.

Lemma trial_body_ok (c : Configuration) (g : RandomState) :
  scales_nonneg c ->
  exists l g' z1 b25 z2 b38 e u,
    trial_body c g = Ok (l, g') /\ trial_facts c l z1 b25 z2 b38 e u.
Proof.
  intros (Hs & Hv & Hb).
  unfold trial_body.
  erewrite bind_ok by (apply np_random_normal_ok; exact Hs).
  set (z1 := fst (gauss g)). set (g1 := snd (gauss g)).
  erewrite bind_ok by (apply np_random_beta_ok; reflexivity).
  set (b25 := fst (standard_beta 2 5 g1)). set (g2 := snd (standard_beta 2 5 g1)).
  assert (0 <= BASE_VELOCITY * risk_velocity c) as Hvs by (unfold BASE_VELOCITY; lra).
  erewrite bind_ok by (apply np_random_normal_ok; exact Hvs).
  set (z2 := fst (gauss g2)). set (g3 := snd (gauss g2)).
  set (fs := py_max 100 _). set (v := py_max 5 _).
  assert (~ v == 0) as Hv0 by (pose proof (py_max_lb 5 (BASE_VELOCITY + BASE_VELOCITY * risk_velocity c * z2)); fold v in H; lra).
  erewrite bind_ok by (apply py_div_ok; exact Hv0).
  erewrite bind_ok by (apply py_div_ok; unfold WORK_DAYS_PER_MONTH; lra).
  erewrite bind_ok by (apply np_random_beta_ok; reflexivity).
  set (b38 := fst (standard_beta 3 8 g3)). set (g4 := snd (standard_beta 3 8 g3)).
  erewrite bind_ok by (apply np_random_exponential_ok; exact Hb).
  set (e := fst (standard_exponential g4)). set (g5 := snd (standard_exponential g4)).
  erewrite bind_ok by (apply np_random_uniform_ok).
  set (u := fst (random_sample g5)). set (g6 := snd (random_sample g5)).
  erewrite bind_ok by (apply py_div_ok; lra).
  erewrite bind_ok by (apply margin_ok).
  unfold ret.
  eexists _, g6, z1, b25, z2, b38, e, u. split; [reflexivity|].
  constructor; cbn [scope_volatility scope_change final_scope vel_std velocity sprints
    total_days duration_months labor_dev labor_qa labor_pm labor_cost rework_factor
    rework_cost monthly_cloud cloud_cost tco_one_off managed_service_annual tco_total
    target_markup revenue_one_off profit profit_margin]; try reflexivity.
  - now exists g.
  - now exists g1.
  - now exists g2.
  - now exists g3.
  - now exists g4.
  - now exists g5.
  - apply standard_beta_range.
  - apply standard_beta_range.
  - apply standard_exponential_nonneg.
  - apply random_sample_range.
Qed.

End TrialFacts.

Section LoopFacts.

Context {G : BitGenerator}.

Lemma trial_loop_ok (c : Configuration) :
  scales_nonneg c ->
  forall (n : nat) (results : list TrialRecord) (g : RandomState),
  exists rows g',
    trial_loop c n results g = Ok (results ++ rows, g') /\
    List.length rows = n /\
    Forall (row_facts c) rows.
Proof.
  intros Hc. induction n as [|n IH]; intros results g.
  - exists [], g. cbn. rewrite app_nil_r. repeat split. constructor.
  - destruct (trial_body_ok c g Hc) as (l & g1 & z1 & b25 & z2 & b38 & e & u & Hrun & Hl).
    destruct (IH (results ++ [store_results c l]) g1) as (rows & g' & Hloop & Hlen & Hall).
    exists (store_results c l :: rows), g'. repeat split.
    + cbn [trial_loop]. erewrite bind_ok by exact Hrun.
      rewrite Hloop, <- app_assoc. reflexivity.
    + cbn. now rewrite Hlen.
    + constructor; [|exact Hall].
      now exists l, z1, b25, z2, b38, e, u.
Qed.

Lemma run_simulation_seeded (c : Configuration) (g : RandomState) :
  run_simulation c g =
  bind (trial_loop c (Z.to_nat (n_simulations c)) []) ret (seed_state 42).
Proof. reflexivity. Qed.

Lemma run_simulation_ok (c : Configuration) (g : RandomState) :
  scales_nonneg c ->
  exists df g',
    run_simulation c g = Ok (df, g') /\
    List.length df = Z.to_nat (n_simulations c) /\
    Forall (row_facts c) df.
Proof.
  intros Hc. rewrite run_simulation_seeded.
  destruct (trial_loop_ok c Hc (Z.to_nat (n_simulations c)) [] (seed_state 42))
    as (rows & g' & Hloop & Hlen & Hall).
  exists rows, g'. repeat split; try assumption.
  erewrite bind_ok by exact Hloop. reflexivity.
Qed.

(** The only exception a pass through the loop body can raise is the
    [ValueError] of a negative scale. *)
Lemma trial_body_raises (c : Configuration) (g : RandomState) :
  (exists l g', trial_body c g = Ok (l, g')) \/ trial_body c g = Raise ValueError.
Proof.
  destruct (Qle_bool 0 (risk_scope c)) eqn:Es.
  2:{ right. unfold trial_body. apply bind_raise.
      unfold np_random_normal. now rewrite Es. }
  destruct (Qle_bool 0 (risk_velocity c)) eqn:Ev.
  2:{ right. unfold trial_body.
      apply Qle_bool_iff in Es.
      erewrite bind_ok by (apply np_random_normal_ok; exact Es).
      erewrite bind_ok by (apply np_random_beta_ok; reflexivity).
      apply bind_raise. unfold np_random_normal.
      destruct (Qle_bool 0 (BASE_VELOCITY * risk_velocity c)) eqn:E; [|reflexivity].
      apply Qle_bool_iff in E. unfold BASE_VELOCITY in E.
      assert (0 <= risk_velocity c) as H by lra.
      apply Qle_bool_iff in H. congruence. }
  destruct (Qle_bool 0 (risk_bugs c)) eqn:Eb.
  - left. apply Qle_bool_iff in Es, Ev, Eb.
    destruct (trial_body_ok c g) as (l & g' & _ & _ & _ & _ & _ & _ & H & _).
    { now repeat split. }
    now exists l, g'.
  - right. unfold trial_body.
    apply Qle_bool_iff in Es, Ev.
    erewrite bind_ok by (apply np_random_normal_ok; exact Es).
    erewrite bind_ok by (apply np_random_beta_ok; reflexivity).
    erewrite bind_ok by (apply np_random_normal_ok; unfold BASE_VELOCITY; lra).
    erewrite bind_ok.
    2:{ apply py_div_ok.
        match goal with |- ~ py_max 5 ?x == 0 => pose proof (py_max_lb 5 x) end. lra. }
    erewrite bind_ok by (apply py_div_ok; unfold WORK_DAYS_PER_MONTH; lra).
    erewrite bind_ok by (apply np_random_beta_ok; reflexivity).
    apply bind_raise. unfold np_random_exponential. now rewrite Eb.
Qed.

End LoopFacts.

Lemma risk_levels_unit_scales (c : Configuration) :
  risk_levels_unit c -> scales_nonneg c.
Proof.
  intros ((Hs & _) & (Hv & _) & (Hb & _) & _). now repeat split.
Qed.

Lemma default_risk_levels_unit : risk_levels_unit (sidebar default_inputs).
Proof.
  unfold risk_levels_unit; cbn; unfold Qle; cbn; lia.
Qed.


Lemma scenario_A_scales (n : Z) : scales_nonneg (scenario_A n).
Proof.
  unfold scales_nonneg; cbn; unfold Qle; cbn; lia.
Qed.

Section ScenarioA.

Context {G : BitGenerator}.

Lemma scenario_A_row (n : Z) (r : TrialRecord) :
  row_facts (scenario_A n) r ->
  Velocity_SP r == 20 /\
  Sprints r == 25 /\
  Duration_Days r == 250 /\
  Duration_Months r == 25 # 2 /\
  Labor_Cost r == 500000 /\
  0 <= Rework_Cost r /\ Rework_Cost r <= 500000 /\
  exists b, (exists g0, b = fst (standard_beta 3 8 g0)) /\ Rework_Cost r == b * 500000.
Proof.
  intros (l & z1 & b25 & z2 & b38 & e & u & -> & Hl). destruct Hl. cbn.
  assert (risk_scope (scenario_A n) == 0) as Zs by reflexivity.
  assert (risk_velocity (scenario_A n) == 0) as Zv by reflexivity.
  assert (risk_bugs (scenario_A n) == 0) as Zb by reflexivity.
  assert (risk_changes (scenario_A n) == 0) as Zc by reflexivity.
  assert (inject_Z (base_scope (scenario_A n)) = 500) as Zbase by reflexivity.
  assert (velocity l == 20) as Hv.
  { rewrite tf_velocity0, tf_vel_std0. unfold BASE_VELOCITY.
    rewrite py_max_eq_r; rewrite Zv; [ring|lra]. }
  assert (final_scope l == 500) as Hf.
  { rewrite tf_final_scope0, tf_scope_volatility0, tf_scope_change0, Zbase.
    rewrite py_max_eq_r; rewrite Zs, Zc; [ring|lra]. }
  assert (sprints l == 25) as Hs.
  { rewrite tf_sprints0, Hf, Hv. reflexivity. }
  assert (total_days l == 250) as Hd.
  { rewrite tf_total_days0, Hs. reflexivity. }
  assert (duration_months l == 25 # 2) as Hm.
  { rewrite tf_duration_months0, Hd. reflexivity. }
  assert (labor_cost l == 500000) as Hl.
  { rewrite tf_labor_cost0, tf_labor_dev0, tf_labor_qa0, tf_labor_pm0, Hd.
    reflexivity. }
  assert (rework_factor l == b38) as Hr.
  { rewrite tf_rework_factor0.
    rewrite py_min_eq_l; rewrite Zb; [ring|lra]. }
  assert (rework_cost l == b38 * 500000) as Hc.
  { rewrite tf_rework_cost0, Hr, Hl. reflexivity. }
  repeat split; try assumption.
  - rewrite Hc. lra.
  - rewrite Hc. lra.
  - exists b38. split; assumption.
Qed.

End ScenarioA.

Lemma slider_bounds (lo hi step v : Z) :
  slider lo hi step v = true -> (lo <= v <= hi)%Z.
Proof.
  unfold slider. rewrite !andb_true_iff, !Z.leb_le. tauto.
Qed.

Lemma percent_unit (v : Z) :
  (0 <= v <= 100)%Z -> 0 <= inject_Z v / 100 /\ inject_Z v / 100 <= 1.
Proof.
  intros H. unfold Qle, Qdiv; cbn. lia.
Qed.

Lemma widgets_admit_risk_levels (w : WidgetInputs) :
  widgets_admit w = true -> risk_levels_unit (sidebar w).
Proof.
  unfold widgets_admit. rewrite !andb_true_iff. intros H.
  repeat match goal with H : _ /\ _ |- _ => destruct H end.
  repeat match goal with H : slider _ _ _ _ = true |- _ => apply slider_bounds in H end.
  unfold risk_levels_unit; cbn [sidebar risk_scope risk_velocity risk_bugs risk_changes].
  split; [|split; [|split]]; apply percent_unit; assumption.
Qed.

Lemma widgets_admit_n_simulations (w : WidgetInputs) :
  widgets_admit w = true -> (1000 <= n_simulations (sidebar w) <= 10000)%Z.
Proof.
  unfold widgets_admit. rewrite !andb_true_iff.
  intros (_ & Hn). now apply slider_bounds in Hn.
Qed.

Lemma number_input_safe (min_value : option Z) (v : Z) :
  safe_integer v ->
  number_input min_value v =
  match min_value with Some m => (m <=? v)%Z | None => true end.
Proof.
  intros (Hlo & Hhi). unfold number_input.
  apply Z.leb_le in Hlo, Hhi.
  destruct min_value; rewrite ?Hlo, Hhi; cbn; now rewrite ?andb_true_r.
Qed.

Lemma number_input_None_safe (v : Z) :
  number_input None v = true -> safe_integer v.
Proof.
  unfold number_input, safe_integer. rewrite andb_true_iff, !Z.leb_le. tauto.
Qed.

Lemma widgets_admit_safe_integers (w : WidgetInputs) :
  widgets_admit w = true ->
  safe_integer (rate_dev (sidebar w)) /\ safe_integer (rate_qa (sidebar w)) /\
  safe_integer (rate_pm (sidebar w)) /\ safe_integer (base_scope (sidebar w)).
Proof.
  unfold widgets_admit. rewrite !andb_true_iff. intros H.
  repeat match goal with H : _ /\ _ |- _ => destruct H end.
  cbn [sidebar rate_dev rate_qa rate_pm base_scope].
  repeat split; now apply number_input_None_safe.
Qed.

Section RunFacts.

Context {G : BitGenerator}.

Lemma trial_loop_raises (c : Configuration) (n : nat) :
  forall (results : list TrialRecord) (g : RandomState),
    (exists rows g', trial_loop c n results g = Ok (rows, g')) \/
    trial_loop c n results g = Raise ValueError.
Proof.
  induction n as [|n IH]; intros results g.
  - left. now exists results, g.
  - cbn [trial_loop].
    destruct (trial_body_raises c g) as [(l & g1 & H)|H].
    + erewrite bind_ok by exact H. apply IH.
    + right. now apply bind_raise.
Qed.

Lemma run_simulation_raises (c : Configuration) (g : RandomState) :
  (exists df g', run_simulation c g = Ok (df, g')) \/
  run_simulation c g = Raise ValueError.
Proof.
  rewrite run_simulation_seeded.
  destruct (trial_loop_raises c (Z.to_nat (n_simulations c)) [] (seed_state 42))
    as [(rows & g' & H)|H].
  - left. exists rows, g'. now erewrite bind_ok by exact H.
  - right. now apply bind_raise.
Qed.

Lemma script_ok (w : WidgetInputs) (s : Session) :
  scales_nonneg (sidebar w) ->
  exists s' df,
    script w true s = Ok s' /\
    session_df s' = Some df /\
    List.length df = Z.to_nat (in_n_simulations w).
Proof.
  intros Hc. unfold script.
  destruct (run_simulation_ok (sidebar w) (np_random s) Hc) as (df & g' & -> & Hlen & _).
  eexists _, df. repeat split. exact Hlen.
Qed.

End RunFacts.

Lemma valid_configuration_scales (c : Configuration) :
  valid_configuration c -> scales_nonneg c.
Proof.
  intros (_ & _ & _ & _ & _ & _ & _ & H & _). now apply risk_levels_unit_scales.
Qed.

(** Closed goals about concrete configurations: bounds on entries. *)
Ltac concrete_bounds :=
  repeat match goal with
         | |- _ /\ _ => split
         | |- _ -> _ => intro
         | |- (_ <= _)%Q => unfold Qle; cbn; lia
         | |- (_ < _)%Q => unfold Qlt; cbn; lia
         | |- _ => lia
         end.

(** * The claims *)

(** C1. Two runs of the simulation on the same configuration (the seed being
    the same in both) end in the same result whatever the generator held
    before; with risk levels in [0,1] that result is one table of
    [n_simulations] records, identical in both runs. *)
Theorem simulation_reproducible {G : BitGenerator} (c : Configuration) (g1 g2 : RandomState) :
  run_simulation c g1 = run_simulation c g2 /\
  (risk_levels_unit c ->
   exists df g',
     run_simulation c g1 = Ok (df, g') /\
     run_simulation c g2 = Ok (df, g') /\
     List.length df = Z.to_nat (n_simulations c) /\
     forall i, (i < Z.to_nat (n_simulations c))%nat ->
               exists r, nth_error df i = Some r).
Proof.
  split; [reflexivity|].
  intros Hc.
  destruct (run_simulation_ok c g1 (risk_levels_unit_scales c Hc))
    as (df & g' & Hrun & Hlen & _).
  exists df, g'. repeat split; try assumption.
  intros i Hi.
  destruct (nth_error df i) as [r|] eqn:E; [now exists r|].
  apply nth_error_None in E. lia.
Qed.

(** The same on concrete entries, run with the reference generator. *)
Lemma simulation_reproducible_witness :
  risk_levels_unit (sidebar default_inputs) /\
  exists df g',
    run_simulation (G := Reference.generator) (sidebar default_inputs) 1%Z = Ok (df, g') /\
    run_simulation (G := Reference.generator) (sidebar default_inputs) 2%Z = Ok (df, g') /\
    List.length df = Z.to_nat (n_simulations (sidebar default_inputs)) /\
    forall i, (i < Z.to_nat (n_simulations (sidebar default_inputs)))%nat ->
              exists r, nth_error df i = Some r.
Proof.
  split.
  - unfold risk_levels_unit; cbn; concrete_bounds.
  - apply (simulation_reproducible (G := Reference.generator)
             (sidebar default_inputs) 1%Z 2%Z).
    unfold risk_levels_unit; cbn; concrete_bounds.
Defined.

(** C2. Every row of a run has a final scope of at least 100 story points and
    a velocity of at least 5 story points per sprint, whatever the risk
    levels in [0,1]. *)
Theorem scope_and_velocity_floors {G : BitGenerator} (c : Configuration) (g : RandomState) :
  risk_levels_unit c ->
  exists df g',
    run_simulation c g = Ok (df, g') /\
    List.length df = Z.to_nat (n_simulations c) /\
    Forall (fun r => 100 <= Scope_SP r /\ 5 <= Velocity_SP r) df.
Proof.
  intros Hc.
  destruct (run_simulation_ok c g (risk_levels_unit_scales c Hc))
    as (df & g' & Hrun & Hlen & Hall).
  exists df, g'. repeat split; try assumption.
  eapply Forall_impl; [|exact Hall].
  intros r (l & z1 & b25 & z2 & b38 & e & u & -> & Hl). cbn.
  rewrite (tf_final_scope _ _ _ _ _ _ _ _ Hl), (tf_velocity _ _ _ _ _ _ _ _ Hl).
  split; apply py_max_lb.
Qed.

(** The same on concrete entries, run with the reference generator. *)
Lemma scope_and_velocity_floors_witness :
  risk_levels_unit (sidebar default_inputs) /\
  exists df g',
    run_simulation (G := Reference.generator) (sidebar default_inputs) 7%Z = Ok (df, g') /\
    List.length df = Z.to_nat (n_simulations (sidebar default_inputs)) /\
    Forall (fun r => 100 <= Scope_SP r /\ 5 <= Velocity_SP r) df.
Proof.
  split.
  - unfold risk_levels_unit; cbn; concrete_bounds.
  - apply (scope_and_velocity_floors (G := Reference.generator)
             (sidebar default_inputs) 7%Z).
    unfold risk_levels_unit; cbn; concrete_bounds.
Defined.

(** C3. In every trial of a run the rework factor is the sum of the Beta(3,8)
    draw and the exponential draw scaled by the bug-risk level, capped at 1;
    it lies in [0,1] and the stored rework cost is that factor times the
    labor cost. *)
Theorem rework_factor_unit {G : BitGenerator} (c : Configuration) (g : RandomState) :
  risk_levels_unit c ->
  exists df g',
    run_simulation c g = Ok (df, g') /\
    List.length df = Z.to_nat (n_simulations c) /\
    Forall (fun r =>
      exists l b e,
        r = store_results c l /\
        (exists g0, b = fst (standard_beta 3 8 g0)) /\
        (exists g0, e = fst (standard_exponential g0)) /\
        rework_factor l = py_min (b + risk_bugs c * e) 1 /\
        0 <= rework_factor l /\ rework_factor l <= 1 /\
        Rework_Cost r = rework_factor l * Labor_Cost r) df.
Proof.
  intros Hc.
  destruct (run_simulation_ok c g (risk_levels_unit_scales c Hc))
    as (df & g' & Hrun & Hlen & Hall).
  exists df, g'. repeat split; try assumption.
  eapply Forall_impl; [|exact Hall].
  intros r (l & z1 & b25 & z2 & b38 & e & u & -> & Hl).
  exists l, b38, e. destruct Hl. cbn.
  repeat split; try assumption.
  - rewrite tf_rework_factor0. apply py_min_glb; [|lra].
    destruct Hc as (_ & _ & (Hb & _) & _).
    pose proof (Qmult_le_0_compat _ _ Hb tf_e0). lra.
  - rewrite tf_rework_factor0. apply py_min_le_r.
Qed.

(** The same on concrete entries, run with the reference generator. *)
Lemma rework_factor_unit_witness :
  risk_levels_unit (sidebar default_inputs) /\
  exists df g',
    run_simulation (G := Reference.generator) (sidebar default_inputs) 7%Z = Ok (df, g') /\
    List.length df = Z.to_nat (n_simulations (sidebar default_inputs)) /\
    Forall (fun r =>
      exists l b e,
        r = store_results (sidebar default_inputs) l /\
        (exists g0, b = fst (standard_beta (BitGenerator := Reference.generator) 3 8 g0)) /\
        (exists g0, e = fst (standard_exponential (BitGenerator := Reference.generator) g0)) /\
        rework_factor l = py_min (b + risk_bugs (sidebar default_inputs) * e) 1 /\
        0 <= rework_factor l /\ rework_factor l <= 1 /\
        Rework_Cost r = rework_factor l * Labor_Cost r) df.
Proof.
  split.
  - unfold risk_levels_unit; cbn; concrete_bounds.
  - apply (rework_factor_unit (G := Reference.generator)
             (sidebar default_inputs) 7%Z).
    unfold risk_levels_unit; cbn; concrete_bounds.
Defined.

(** C4. Under Scenario A every trial has velocity 20, 25 sprints, 250 days,
    12.5 months and a labor cost of 500000; its rework cost is the Beta(3,8)
    draw times 500000, hence within [0, 500000], and it is not forced to 0:
    a trial with a positive rework cost exists. *)
Theorem scenario_A_trials :
  (forall (G : BitGenerator) (n : Z) (g : RandomState),
     exists df g',
       run_simulation (scenario_A n) g = Ok (df, g') /\
       List.length df = Z.to_nat n /\
       Forall (fun r =>
         Velocity_SP r == 20 /\
         Sprints r == 25 /\
         Duration_Days r == 250 /\
         Duration_Months r == 25 # 2 /\
         Labor_Cost r == 500000 /\
         0 <= Rework_Cost r /\ Rework_Cost r <= 500000 /\
         exists b, (exists g0, b = fst (standard_beta 3 8 g0)) /\
                   Rework_Cost r == b * 500000) df) /\
  (exists l g',
     trial_body (G := Reference.generator) (scenario_A 1000) 42%Z = Ok (l, g') /\
     0 < rework_cost l).
Proof.
  split.
  - intros G n g.
    destruct (run_simulation_ok (scenario_A n) g (scenario_A_scales n))
      as (df & g' & Hrun & Hlen & Hall).
    exists df, g'. repeat split; try assumption.
    eapply Forall_impl; [|exact Hall].
    intros r Hr. apply (scenario_A_row n r Hr).
  - eexists _, _. split.
    + vm_compute. reflexivity.
    + vm_compute. reflexivity.
Qed.

(** C5. In every row the profit margin is 100 x profit / revenue when the
    revenue is positive, and exactly 0 when it is not. *)
Theorem profit_margin_guarded {G : BitGenerator} (c : Configuration) (g : RandomState) :
  scales_nonneg c ->
  exists df g',
    run_simulation c g = Ok (df, g') /\
    List.length df = Z.to_nat (n_simulations c) /\
    Forall (fun r =>
      (0 < Revenue r -> Profit_Margin_pct r == 100 * Profit r / Revenue r) /\
      (Revenue r <= 0 -> Profit_Margin_pct r = 0)) df.
Proof.
  intros Hc.
  destruct (run_simulation_ok c g Hc) as (df & g' & Hrun & Hlen & Hall).
  exists df, g'. repeat split; try assumption.
  eapply Forall_impl; [|exact Hall].
  intros r (l & z1 & b25 & z2 & b38 & e & u & -> & Hl). cbn.
  rewrite (tf_profit_margin _ _ _ _ _ _ _ _ Hl).
  split; intros H.
  - rewrite Qlt_alt in H. rewrite H. unfold Qdiv. ring.
  - destruct (0 ?= revenue_one_off l) eqn:E; try reflexivity.
    rewrite <- Qlt_alt in E. lra.
Qed.

(** The same on concrete entries, run with the reference generator. *)
Lemma profit_margin_guarded_witness :
  scales_nonneg (sidebar zero_rate_inputs) /\
  exists df g',
    run_simulation (G := Reference.generator) (sidebar zero_rate_inputs) 7%Z = Ok (df, g') /\
    List.length df = Z.to_nat (n_simulations (sidebar zero_rate_inputs)) /\
    Forall (fun r =>
      (0 < Revenue r -> Profit_Margin_pct r == 100 * Profit r / Revenue r) /\
      (Revenue r <= 0 -> Profit_Margin_pct r = 0)) df.
Proof.
  split.
  - unfold scales_nonneg; cbn; concrete_bounds.
  - apply (profit_margin_guarded (G := Reference.generator)
             (sidebar zero_rate_inputs) 7%Z).
    unfold scales_nonneg; cbn; concrete_bounds.
Defined.

(** With all rates at 0 and no cloud the revenue of a trial is 0, and so is
    its margin: the second branch of the guard is taken. *)
Example zero_revenue_trial :
  exists l g',
    trial_body (G := Reference.generator) (sidebar zero_rate_inputs) 42%Z = Ok (l, g') /\
    revenue_one_off l == 0 /\ profit_margin l = 0.
Proof.
  eexists _, _. split; [vm_compute; reflexivity|]. split; vm_compute; reflexivity.
Qed.

(** C6. In every row the total cost of ownership is the one-off cost plus the
    annual managed-service cost times the duration in months over 12; it
    exceeds the one-off cost when both are positive, and equals it when the
    managed service is disabled. *)
Theorem tco_total_composition {G : BitGenerator} (c : Configuration) (g : RandomState) :
  scales_nonneg c ->
  exists df g',
    run_simulation c g = Ok (df, g') /\
    List.length df = Z.to_nat (n_simulations c) /\
    Forall (fun r =>
      TCO_Total r == TCO_OneOff r + Managed_Service_Annual r * Duration_Months r / 12 /\
      (0 < Managed_Service_Annual r -> 0 < Duration_Months r ->
       TCO_OneOff r < TCO_Total r) /\
      (include_managed_service c = false -> TCO_Total r == TCO_OneOff r)) df.
Proof.
  intros Hc.
  destruct (run_simulation_ok c g Hc) as (df & g' & Hrun & Hlen & Hall).
  exists df, g'. repeat split; try assumption.
  eapply Forall_impl; [|exact Hall].
  intros r (l & z1 & b25 & z2 & b38 & e & u & -> & Hl). cbn.
  rewrite (tf_tco_total _ _ _ _ _ _ _ _ Hl).
  split; [reflexivity|split].
  - intros Hm Hd.
    pose proof (Qmult_lt_0_compat _ _ Hm Hd) as Hpos.
    assert (0 < managed_service_annual l * duration_months l / 12) as Hadd
      by (apply Qmult_lt_0_compat; [exact Hpos|reflexivity]).
    lra.
  - intros Hoff. rewrite (tf_managed_service_annual _ _ _ _ _ _ _ _ Hl), Hoff.
    unfold Qdiv. ring.
Qed.

(** The same on concrete entries, run with the reference generator. *)
Lemma tco_total_composition_witness :
  scales_nonneg (sidebar default_inputs) /\
  exists df g',
    run_simulation (G := Reference.generator) (sidebar default_inputs) 7%Z = Ok (df, g') /\
    List.length df = Z.to_nat (n_simulations (sidebar default_inputs)) /\
    Forall (fun r =>
      TCO_Total r == TCO_OneOff r + Managed_Service_Annual r * Duration_Months r / 12 /\
      (0 < Managed_Service_Annual r -> 0 < Duration_Months r ->
       TCO_OneOff r < TCO_Total r) /\
      (include_managed_service (sidebar default_inputs) = false ->
       TCO_Total r == TCO_OneOff r)) df.
Proof.
  split.
  - unfold scales_nonneg; cbn; concrete_bounds.
  - apply (tco_total_composition (G := Reference.generator)
             (sidebar default_inputs) 7%Z).
    unfold scales_nonneg; cbn; concrete_bounds.
Defined.

(** C7. On a valid configuration the run raises nothing and yields all its
    rows, each with a velocity of at least 5 and a margin that is 0 unless
    the revenue is positive; and on any configuration whatever, neither a
    trial nor the run raises [ZeroDivisionError]. *)
Theorem no_zero_division {G : BitGenerator} :
  (forall c g,
     valid_configuration c ->
     exists df g',
       run_simulation c g = Ok (df, g') /\
       List.length df = Z.to_nat (n_simulations c) /\
       Forall (fun r => 5 <= Velocity_SP r /\
                        (0 < Revenue r \/ Profit_Margin_pct r = 0)) df) /\
  (forall c g, trial_body c g <> Raise ZeroDivisionError) /\
  (forall c g, run_simulation c g <> Raise ZeroDivisionError).
Proof.
  repeat split.
  - intros c g Hc.
    destruct (run_simulation_ok c g (valid_configuration_scales c Hc))
      as (df & g' & Hrun & Hlen & Hall).
    exists df, g'. repeat split; try assumption.
    eapply Forall_impl; [|exact Hall].
    intros r (l & z1 & b25 & z2 & b38 & e & u & -> & Hl). cbn.
    rewrite (tf_velocity _ _ _ _ _ _ _ _ Hl), (tf_profit_margin _ _ _ _ _ _ _ _ Hl).
    split; [apply py_max_lb|].
    destruct (0 ?= revenue_one_off l) eqn:E; try (now right).
    left. now rewrite Qlt_alt.
  - intros c g H.
    destruct (trial_body_raises c g) as [(l & g' & H')|H']; congruence.
  - intros c g H.
    destruct (run_simulation_raises c g) as [(l & g' & H')|H']; congruence.
Qed.

(** The same on concrete entries, run with the reference generator. *)
Lemma no_zero_division_witness :
  valid_configuration (sidebar default_inputs) /\
  exists df g',
    run_simulation (G := Reference.generator) (sidebar default_inputs) 7%Z = Ok (df, g') /\
    List.length df = Z.to_nat (n_simulations (sidebar default_inputs)) /\
    Forall (fun r => 5 <= Velocity_SP r /\
                     (0 < Revenue r \/ Profit_Margin_pct r = 0)) df.
Proof.
  split.
  - unfold valid_configuration, risk_levels_unit; cbn; concrete_bounds.
  - apply (proj1 (no_zero_division (G := Reference.generator))
             (sidebar default_inputs) 7%Z).
    unfold valid_configuration, risk_levels_unit; cbn; concrete_bounds.
Defined.

(** C8 as stated fails: a developer rate of -1000 a day is not a valid
    configuration, yet the widgets admit it, the script runs the simulation
    on it to the end, and the first trial records a negative labor cost and a
    negative total cost of ownership. *)
Lemma negative_rate_not_rejected :
  ~ valid_configuration (sidebar negative_rate_inputs) /\
  widgets_admit negative_rate_inputs = true /\
  (exists s' df,
     script (G := Reference.generator) negative_rate_inputs true
       (@Build_Session Reference.generator 0%Z None) = Ok s' /\
     session_df s' = Some df /\
     List.length df = 5000%nat) /\
  (exists l g',
     trial_body (G := Reference.generator) (sidebar negative_rate_inputs) 42%Z
     = Ok (l, g') /\
     labor_cost l < 0 /\ tco_total l < 0).
Proof.
  split; [|split; [|split]].
  - intros (H & _). cbn in H. lia.
  - reflexivity.
  - destruct (script_ok (G := Reference.generator) negative_rate_inputs
                (@Build_Session Reference.generator 0%Z None))
      as (s' & df & Hs & Hdf & Hlen).
    + unfold scales_nonneg; cbn; concrete_bounds.
    + exists s', df. split; [exact Hs|]. split; [exact Hdf|].
      rewrite Hlen. reflexivity.
  - eexists _, _. split; [vm_compute; reflexivity|]. split; vm_compute; reflexivity.
Qed.

(** C8, as amended.  The widget bounds are the only validation: entries they
    admit give risk levels in [0,1], a trial count between 1000 and 10000 and
    rates and base scope within the widgets' integer range, and the run on
    them completes with all its rows.  Within that range rates and base scope
    are admitted whatever they are, negative or zero included, and so is any
    cloud minimum from 500 with any cloud maximum from 1000, in either
    order. *)
Theorem widgets_are_the_only_validation {G : BitGenerator} (w : WidgetInputs) :
  widgets_admit w = true ->
  risk_levels_unit (sidebar w) /\
  (1000 <= n_simulations (sidebar w) <= 10000)%Z /\
  (safe_integer (rate_dev (sidebar w)) /\ safe_integer (rate_qa (sidebar w)) /\
   safe_integer (rate_pm (sidebar w)) /\ safe_integer (base_scope (sidebar w))) /\
  (forall s, exists s' df,
     script w true s = Ok s' /\
     session_df s' = Some df /\
     List.length df = Z.to_nat (in_n_simulations w)) /\
  (forall rd rq rp bs,
     safe_integer rd -> safe_integer rq -> safe_integer rp -> safe_integer bs ->
     widgets_admit (set_rates_and_scope rd rq rp bs w) = true) /\
  (forall lo hi,
     (500 <= lo <= MAX_SAFE_INTEGER)%Z -> (1000 <= hi <= MAX_SAFE_INTEGER)%Z ->
     widgets_admit (set_cloud lo hi w) = true).
Proof.
  intros Hw.
  pose proof (widgets_admit_risk_levels w Hw) as Hr.
  split; [exact Hr|].
  split; [exact (widgets_admit_n_simulations w Hw)|].
  split; [exact (widgets_admit_safe_integers w Hw)|].
  split.
  { intros s. apply script_ok. now apply risk_levels_unit_scales. }
  split.
  - intros rd rq rp bs Hrd Hrq Hrp Hbs.
    unfold widgets_admit in *.
    cbn [set_rates_and_scope in_rate_dev in_rate_qa in_rate_pm
      in_num_dev in_num_qa in_num_pm in_base_scope in_risk_scope in_risk_velocity
      in_risk_bugs in_risk_changes in_use_cloud in_cloud_min in_cloud_max
      in_include_managed_service in_managed_service_pct in_n_simulations].
    rewrite !andb_true_iff in Hw.
    repeat match goal with H : _ /\ _ |- _ => destruct H end.
    rewrite !(number_input_safe None) by assumption.
    rewrite !andb_true_iff.
    repeat split; try assumption; reflexivity.
  - intros lo hi Hlo Hhi.
    unfold widgets_admit in *.
    cbn [set_cloud in_rate_dev in_rate_qa in_rate_pm
      in_num_dev in_num_qa in_num_pm in_base_scope in_risk_scope in_risk_velocity
      in_risk_bugs in_risk_changes in_use_cloud in_cloud_min in_cloud_max
      in_include_managed_service in_managed_service_pct in_n_simulations].
    rewrite !andb_true_iff in *.
    repeat match goal with H : _ /\ _ |- _ => destruct H end.
    repeat split; try assumption; cbn [number_input];
      apply andb_true_iff; split; apply Z.leb_le; lia.
Qed.

(** The same on concrete entries, run with the reference generator. *)
Lemma widgets_are_the_only_validation_witness :
  widgets_admit default_inputs = true /\
  risk_levels_unit (sidebar default_inputs) /\
  (1000 <= n_simulations (sidebar default_inputs) <= 10000)%Z /\
  (safe_integer (rate_dev (sidebar default_inputs)) /\
   safe_integer (rate_qa (sidebar default_inputs)) /\
   safe_integer (rate_pm (sidebar default_inputs)) /\
   safe_integer (base_scope (sidebar default_inputs))) /\
  (forall s, exists s' df,
     script (G := Reference.generator) default_inputs true s = Ok s' /\
     session_df s' = Some df /\
     List.length df = Z.to_nat (in_n_simulations default_inputs)) /\
  (forall rd rq rp bs,
     safe_integer rd -> safe_integer rq -> safe_integer rp -> safe_integer bs ->
     widgets_admit (set_rates_and_scope rd rq rp bs default_inputs) = true) /\
  (forall lo hi,
     (500 <= lo <= MAX_SAFE_INTEGER)%Z -> (1000 <= hi <= MAX_SAFE_INTEGER)%Z ->
     widgets_admit (set_cloud lo hi default_inputs) = true).
Proof.
  split.
  - reflexivity.
  - apply (widgets_are_the_only_validation (G := Reference.generator) default_inputs).
    reflexivity.
Defined.




(** C10. The run seeds the generator with 42 just before the loop: its result
    is that of the loop started from the state seeded with 42.  Hence a seed
    installed beforehand has no effect, and two script runs on the same
    sidebar entries give the same result from any two sessions. *)
Theorem seed_is_fixed {G : BitGenerator} (c : Configuration) :
  (forall g,
     run_simulation c g =
     bind (trial_loop c (Z.to_nat (n_simulations c)) []) ret (seed_state 42)) /\
  (forall s1 s2 g1 g2,
     bind (np_random_seed s1) (fun _ => run_simulation c) g1 =
     bind (np_random_seed s2) (fun _ => run_simulation c) g2) /\
  (forall w s1 s2, script w true s1 = script w true s2).
Proof.
  repeat split.
Qed.

(** * Further properties of the code *)

Lemma rows_satisfy {G : BitGenerator} (P : TrialRecord -> Prop) (c : Configuration)
    (g : RandomState) :
  scales_nonneg c ->
  (forall r, row_facts c r -> P r) ->
  exists df g',
    run_simulation c g = Ok (df, g') /\
    List.length df = Z.to_nat (n_simulations c) /\
    Forall P df.
Proof.
  intros Hc HP.
  destruct (run_simulation_ok c g Hc) as (df & g' & Hrun & Hlen & Hall).
  exists df, g'. split; [exact Hrun|]. split; [exact Hlen|].
  eapply Forall_impl; [|exact Hall]. exact HP.
Qed.

(** The assignments of one pass, as named hypotheses. *)
Ltac unpack_facts H :=
  pose proof (tf_b25 _ _ _ _ _ _ _ _ H) as Fb25;
  pose proof (tf_b38 _ _ _ _ _ _ _ _ H) as Fb38;
  pose proof (tf_e _ _ _ _ _ _ _ _ H) as Fe;
  pose proof (tf_u _ _ _ _ _ _ _ _ H) as Fu;
  pose proof (tf_scope_volatility _ _ _ _ _ _ _ _ H) as Fvol;
  pose proof (tf_scope_change _ _ _ _ _ _ _ _ H) as Fchg;
  pose proof (tf_final_scope _ _ _ _ _ _ _ _ H) as Ffs;
  pose proof (tf_vel_std _ _ _ _ _ _ _ _ H) as Fstd;
  pose proof (tf_velocity _ _ _ _ _ _ _ _ H) as Fvel;
  pose proof (tf_sprints _ _ _ _ _ _ _ _ H) as Fspr;
  pose proof (tf_total_days _ _ _ _ _ _ _ _ H) as Fdays;
  pose proof (tf_duration_months _ _ _ _ _ _ _ _ H) as Fmon;
  pose proof (tf_labor_dev _ _ _ _ _ _ _ _ H) as Fdev;
  pose proof (tf_labor_qa _ _ _ _ _ _ _ _ H) as Fqa;
  pose proof (tf_labor_pm _ _ _ _ _ _ _ _ H) as Fpm;
  pose proof (tf_labor_cost _ _ _ _ _ _ _ _ H) as Flab;
  pose proof (tf_rework_factor _ _ _ _ _ _ _ _ H) as Frf;
  pose proof (tf_rework_cost _ _ _ _ _ _ _ _ H) as Frc;
  pose proof (tf_monthly_cloud _ _ _ _ _ _ _ _ H) as Fmc;
  pose proof (tf_cloud_cost _ _ _ _ _ _ _ _ H) as Fcc;
  pose proof (tf_tco_one_off _ _ _ _ _ _ _ _ H) as Fone;
  pose proof (tf_managed_service_annual _ _ _ _ _ _ _ _ H) as Fmsa;
  pose proof (tf_tco_total _ _ _ _ _ _ _ _ H) as Ftot;
  pose proof (tf_target_markup _ _ _ _ _ _ _ _ H) as Fmark;
  pose proof (tf_revenue_one_off _ _ _ _ _ _ _ _ H) as Frev;
  pose proof (tf_profit _ _ _ _ _ _ _ _ H) as Fpro;
  pose proof (tf_profit_margin _ _ _ _ _ _ _ _ H) as Fmar.

Lemma locals_durations {G : BitGenerator} c l z1 b25 z2 b38 e u :
  trial_facts c l z1 b25 z2 b38 e u ->
  100 <= final_scope l /\ 5 <= velocity l /\ 0 < sprints l /\
  sprints l * velocity l == final_scope l /\
  total_days l == sprints l * 10 /\
  duration_months l == sprints l * (1 # 2).
Proof.
  intros H. unpack_facts H.
  assert (100 <= final_scope l) as Hf by (rewrite Ffs; apply py_max_lb).
  assert (5 <= velocity l) as Hv by (rewrite Fvel; apply py_max_lb).
  assert (0 < / velocity l) as Hi by (apply Qinv_lt_0_compat; lra).
  split; [exact Hf|]. split; [exact Hv|].
  split.
  { rewrite Fspr. apply Qmult_lt_0_compat; lra. }
  split.
  { rewrite Fspr. field. lra. }
  split.
  { rewrite Fdays. reflexivity. }
  rewrite Fmon, Fdays.
  unfold DAYS_PER_SPRINT, WORK_DAYS_PER_MONTH. field.
Qed.

Lemma inject_Z_nonneg (z : Z) : (0 <= z)%Z -> 0 <= inject_Z z.
Proof. intros H. unfold Qle; cbn. lia. Qed.

Lemma inject_Z_pos (z : Z) : (0 < z)%Z -> 0 < inject_Z z.
Proof. intros H. unfold Qlt; cbn. lia. Qed.

Lemma locals_labor {G : BitGenerator} c l z1 b25 z2 b38 e u :
  trial_facts c l z1 b25 z2 b38 e u ->
  labor_cost l == inject_Z (daily_rate c) * total_days l.
Proof.
  intros H. unpack_facts H.
  rewrite Flab, Fdev, Fqa, Fpm. unfold daily_rate.
  rewrite !inject_Z_plus, !inject_Z_mult. ring.
Qed.

Lemma locals_rework_factor {G : BitGenerator} c l z1 b25 z2 b38 e u :
  0 <= risk_bugs c ->
  trial_facts c l z1 b25 z2 b38 e u ->
  0 <= rework_factor l /\ rework_factor l <= 1.
Proof.
  intros Hb H. unpack_facts H. rewrite Frf. split.
  - apply py_min_glb; [|lra].
    pose proof (Qmult_le_0_compat _ _ Hb Fe). lra.
  - apply py_min_le_r.
Qed.

Lemma locals_monthly_cloud {G : BitGenerator} c l z1 b25 z2 b38 e u :
  trial_facts c l z1 b25 z2 b38 e u ->
  ((cloud_min c <= cloud_max c)%Z ->
   inject_Z (cloud_min c) <= monthly_cloud l /\ monthly_cloud l <= inject_Z (cloud_max c)) /\
  ((cloud_max c <= cloud_min c)%Z ->
   inject_Z (cloud_max c) <= monthly_cloud l /\ monthly_cloud l <= inject_Z (cloud_min c)).
Proof.
  intros H. unpack_facts H. rewrite Fmc.
  set (lo := inject_Z (cloud_min c)). set (hi := inject_Z (cloud_max c)).
  split; intros Hle.
  - assert (lo <= hi) as Hq by (unfold lo, hi; rewrite <- Zle_Qle; exact Hle).
    assert (0 <= (hi - lo) * u) by (apply Qmult_le_0_compat; lra).
    assert (0 <= (hi - lo) * (1 - u)) by (apply Qmult_le_0_compat; lra).
    split; lra.
  - assert (hi <= lo) as Hq by (unfold lo, hi; rewrite <- Zle_Qle; exact Hle).
    assert (0 <= (lo - hi) * u) by (apply Qmult_le_0_compat; lra).
    assert (0 <= (lo - hi) * (1 - u)) by (apply Qmult_le_0_compat; lra).
    split; lra.
Qed.

(** X1. Every trial of a run has a positive duration: its sprints, working
    days and months are all positive, and its sprint count is at most a fifth
    of its scope. *)
Theorem durations_positive {G : BitGenerator} (c : Configuration) (g : RandomState) :
  scales_nonneg c ->
  exists df g',
    run_simulation c g = Ok (df, g') /\
    List.length df = Z.to_nat (n_simulations c) /\
    Forall (fun r =>
      0 < Sprints r /\
      Sprints r <= Scope_SP r / 5 /\
      0 < Duration_Days r /\
      0 < Duration_Months r) df.
Proof.
  intros Hc. apply rows_satisfy; [exact Hc|].
  intros r (l & z1 & b25 & z2 & b38 & e & u & -> & Hl). cbn.
  destruct (locals_durations _ _ _ _ _ _ _ _ Hl) as (Hf & Hv & Hs & Hsv & Hd & Hm).
  split; [exact Hs|]. split.
  - apply Qle_shift_div_l; [reflexivity|].
    rewrite <- Hsv.
    assert (0 <= sprints l * (velocity l - 5)) by (apply Qmult_le_0_compat; lra).
    lra.
  - split; [rewrite Hd|rewrite Hm]; lra.
Qed.

(** The same on concrete entries, run with the reference generator. *)
Lemma durations_positive_witness :
  scales_nonneg (sidebar default_inputs) /\
  exists df g',
    run_simulation (G := Reference.generator) (sidebar default_inputs) 7%Z = Ok (df, g') /\
    List.length df = Z.to_nat (n_simulations (sidebar default_inputs)) /\
    Forall (fun r =>
      0 < Sprints r /\
      Sprints r <= Scope_SP r / 5 /\
      0 < Duration_Days r /\
      0 < Duration_Months r) df.
Proof.
  split.
  - unfold scales_nonneg; cbn; concrete_bounds.
  - apply (durations_positive (G := Reference.generator) (sidebar default_inputs) 7%Z).
    unfold scales_nonneg; cbn; concrete_bounds.
Defined.

Lemma row_costs_nonneg {G : BitGenerator} (c : Configuration) (r : TrialRecord) :
  scales_nonneg c ->
  nonneg_inputs c ->
  row_facts c r ->
  0 <= Labor_Cost r /\
  (0 <= Rework_Cost r /\ Rework_Cost r <= Labor_Cost r) /\
  0 <= Cloud_Cost r /\
  0 <= Managed_Service_Annual r /\
  (0 <= TCO_OneOff r /\ TCO_OneOff r <= TCO_Total r) /\
  0 <= Revenue r.
Proof.
  intros Hc Hn (l & z1 & b25 & z2 & b38 & e & u & -> & Hl). cbn.
  destruct Hn as (Hrd & Hrq & Hrp & Hnd & Hnq & Hnp & (Hc0 & Hc1) & Hp).
  destruct (locals_durations _ _ _ _ _ _ _ _ Hl) as (Hf & Hv & Hs & Hsv & Hd & Hm).
  pose proof (locals_labor _ _ _ _ _ _ _ _ Hl) as Hlab.
  destruct (locals_rework_factor _ _ _ _ _ _ _ _ (proj2 (proj2 Hc)) Hl) as (Hr0 & Hr1).
  destruct (proj1 (locals_monthly_cloud _ _ _ _ _ _ _ _ Hl) Hc1) as (Hm0 & _).
  assert (0 <= total_days l) as Hdays by (clear - Hs Hd; lra).
  assert (0 <= duration_months l) as Hmon by (clear - Hs Hm; lra).
  unpack_facts Hl.
  assert (0 <= inject_Z (daily_rate c)) as Hrate.
  { apply inject_Z_nonneg. unfold daily_rate. nia. }
  assert (0 <= inject_Z (cloud_min c)) as Hcm by now apply inject_Z_nonneg.
  assert (0 <= labor_cost l) as Hl0.
  { rewrite Hlab. apply Qmult_le_0_compat; assumption. }
  assert (0 <= rework_cost l) as Hrc0.
  { rewrite Frc. apply Qmult_le_0_compat; assumption. }
  assert (rework_cost l <= labor_cost l) as Hrc1.
  { rewrite Frc.
    assert (0 <= (1 - rework_factor l) * labor_cost l)
      by (apply Qmult_le_0_compat; lra).
    lra. }
  assert (0 <= cloud_cost l) as Hcc.
  { rewrite Fcc. apply Qmult_le_0_compat; lra. }
  assert (0 <= tco_one_off l) as Hone by (rewrite Fone; lra).
  assert (0 <= managed_service_annual l) as Hmsa.
  { rewrite Fmsa. destruct (include_managed_service c); [|lra].
    apply Qmult_le_0_compat; assumption. }
  assert (0 <= managed_service_annual l * duration_months l / 12) as Hadd.
  { apply Qmult_le_0_compat; [|discriminate].
    apply Qmult_le_0_compat; assumption. }
  repeat split; try assumption.
  - rewrite Ftot. lra.
  - rewrite Frev, Fmark. lra.
Qed.

(** X2. When rates, head counts and the managed-service share are not negative
    and the cloud range is in order, no cost of any trial is negative, the
    rework cost never exceeds the labor cost, and the total cost of ownership
    is at least the one-off cost. *)
Theorem costs_nonnegative {G : BitGenerator} (c : Configuration) (g : RandomState) :
  scales_nonneg c ->
  nonneg_inputs c ->
  exists df g',
    run_simulation c g = Ok (df, g') /\
    List.length df = Z.to_nat (n_simulations c) /\
    Forall (fun r =>
      0 <= Labor_Cost r /\
      (0 <= Rework_Cost r /\ Rework_Cost r <= Labor_Cost r) /\
      0 <= Cloud_Cost r /\
      0 <= Managed_Service_Annual r /\
      (0 <= TCO_OneOff r /\ TCO_OneOff r <= TCO_Total r) /\
      0 <= Revenue r) df.
Proof.
  intros Hc Hn. apply rows_satisfy; [exact Hc|].
  intros r Hr. now apply (row_costs_nonneg c r).
Qed.

(** The same on concrete entries, run with the reference generator. *)
Lemma costs_nonnegative_witness :
  scales_nonneg (sidebar default_inputs) /\
  nonneg_inputs (sidebar default_inputs) /\
  exists df g',
    run_simulation (G := Reference.generator) (sidebar default_inputs) 7%Z = Ok (df, g') /\
    List.length df = Z.to_nat (n_simulations (sidebar default_inputs)) /\
    Forall (fun r =>
      0 <= Labor_Cost r /\
      (0 <= Rework_Cost r /\ Rework_Cost r <= Labor_Cost r) /\
      0 <= Cloud_Cost r /\
      0 <= Managed_Service_Annual r /\
      (0 <= TCO_OneOff r /\ TCO_OneOff r <= TCO_Total r) /\
      0 <= Revenue r) df.
Proof.
  split; [|split].
  - unfold scales_nonneg; cbn; concrete_bounds.
  - unfold nonneg_inputs; cbn; concrete_bounds.
  - apply (costs_nonnegative (G := Reference.generator) (sidebar default_inputs) 7%Z).
    + unfold scales_nonneg; cbn; concrete_bounds.
    + unfold nonneg_inputs; cbn; concrete_bounds.
Defined.

Lemma locals_profit {G : BitGenerator} c l z1 b25 z2 b38 e u :
  trial_facts c l z1 b25 z2 b38 e u ->
  revenue_one_off l == (6 # 5) * tco_one_off l /\
  profit l == tco_one_off l * ((1 # 5) - effective_pct c * duration_months l / 12).
Proof.
  intros H. unpack_facts H. split.
  - rewrite Frev, Fmark. ring.
  - rewrite Fpro, Frev, Fmark, Ftot, Fmsa. unfold effective_pct.
    destruct (include_managed_service c); field.
Qed.

(** X3. The cloud cost of a trial lies between the two cloud entries times its
    duration in months, also when the minimum was entered above the maximum. *)
Theorem cloud_cost_bracket {G : BitGenerator} (c : Configuration) (g : RandomState) :
  scales_nonneg c ->
  exists df g',
    run_simulation c g = Ok (df, g') /\
    List.length df = Z.to_nat (n_simulations c) /\
    Forall (fun r =>
      ((cloud_min c <= cloud_max c)%Z ->
       inject_Z (cloud_min c) * Duration_Months r <= Cloud_Cost r /\
       Cloud_Cost r <= inject_Z (cloud_max c) * Duration_Months r) /\
      ((cloud_max c <= cloud_min c)%Z ->
       inject_Z (cloud_max c) * Duration_Months r <= Cloud_Cost r /\
       Cloud_Cost r <= inject_Z (cloud_min c) * Duration_Months r)) df.
Proof.
  intros Hc. apply rows_satisfy; [exact Hc|].
  intros r (l & z1 & b25 & z2 & b38 & e & u & -> & Hl). cbn.
  destruct (locals_durations _ _ _ _ _ _ _ _ Hl) as (Hf & Hv & Hs & Hsv & Hd & Hm).
  assert (0 <= duration_months l) as Hmon by (clear - Hs Hm; lra).
  destruct (locals_monthly_cloud _ _ _ _ _ _ _ _ Hl) as (Hup & Hdown).
  rewrite (tf_cloud_cost _ _ _ _ _ _ _ _ Hl).
  split; intros Hle.
  - destruct (Hup Hle) as (H0 & H1). split.
    + apply Qmult_le_compat_r; assumption.
    + apply Qmult_le_compat_r; assumption.
  - destruct (Hdown Hle) as (H0 & H1). split.
    + apply Qmult_le_compat_r; assumption.
    + apply Qmult_le_compat_r; assumption.
Qed.

(** The same on concrete entries, run with the reference generator. *)
Lemma cloud_cost_bracket_witness :
  scales_nonneg (sidebar reversed_cloud_inputs) /\
  exists df g',
    run_simulation (G := Reference.generator) (sidebar reversed_cloud_inputs) 7%Z
    = Ok (df, g') /\
    List.length df = Z.to_nat (n_simulations (sidebar reversed_cloud_inputs)) /\
    Forall (fun r =>
      ((cloud_min (sidebar reversed_cloud_inputs)
        <= cloud_max (sidebar reversed_cloud_inputs))%Z ->
       inject_Z (cloud_min (sidebar reversed_cloud_inputs)) * Duration_Months r
       <= Cloud_Cost r /\
       Cloud_Cost r
       <= inject_Z (cloud_max (sidebar reversed_cloud_inputs)) * Duration_Months r) /\
      ((cloud_max (sidebar reversed_cloud_inputs)
        <= cloud_min (sidebar reversed_cloud_inputs))%Z ->
       inject_Z (cloud_max (sidebar reversed_cloud_inputs)) * Duration_Months r
       <= Cloud_Cost r /\
       Cloud_Cost r
       <= inject_Z (cloud_min (sidebar reversed_cloud_inputs)) * Duration_Months r)) df.
Proof.
  split.
  - unfold scales_nonneg; cbn; concrete_bounds.
  - apply (cloud_cost_bracket (G := Reference.generator)
             (sidebar reversed_cloud_inputs) 7%Z).
    unfold scales_nonneg; cbn; concrete_bounds.
Defined.

(** X5. A trial with a positive one-off cost makes a profit exactly when the
    charged managed-service share times its duration in months is below
    2.4. *)
Theorem profit_sign {G : BitGenerator} (c : Configuration) (g : RandomState) :
  scales_nonneg c ->
  exists df g',
    run_simulation c g = Ok (df, g') /\
    List.length df = Z.to_nat (n_simulations c) /\
    Forall (fun r =>
      0 < TCO_OneOff r ->
      (0 < Profit r <-> effective_pct c * Duration_Months r < 12 # 5)) df.
Proof.
  intros Hc. apply rows_satisfy; [exact Hc|].
  intros r (l & z1 & b25 & z2 & b38 & e & u & -> & Hl). cbn.
  destruct (locals_profit _ _ _ _ _ _ _ _ Hl) as (Hrev & Hpro).
  intros Hone. rewrite Hpro.
  set (k := (1 # 5) - effective_pct c * duration_months l / 12).
  assert (effective_pct c * duration_months l < 12 # 5 <-> 0 < k) as ->.
  { unfold k. set (x := effective_pct c * duration_months l).
    assert (x / 12 == x * (1 # 12)) as -> by (unfold Qdiv; reflexivity).
    split; intros; lra. }
  split; intros H.
  - destruct (Qlt_le_dec 0 k) as [Hk|Hk]; [exact Hk|].
    assert (0 <= tco_one_off l * (0 - k)) by (apply Qmult_le_0_compat; lra).
    lra.
  - apply Qmult_lt_0_compat; assumption.
Qed.

(** The same on concrete entries, run with the reference generator. *)
Lemma profit_sign_witness :
  scales_nonneg (sidebar default_inputs) /\
  exists df g',
    run_simulation (G := Reference.generator) (sidebar default_inputs) 7%Z = Ok (df, g') /\
    List.length df = Z.to_nat (n_simulations (sidebar default_inputs)) /\
    Forall (fun r =>
      0 < TCO_OneOff r ->
      (0 < Profit r <->
       effective_pct (sidebar default_inputs) * Duration_Months r < 12 # 5)) df.
Proof.
  split.
  - unfold scales_nonneg; cbn; concrete_bounds.
  - apply (profit_sign (G := Reference.generator) (sidebar default_inputs) 7%Z).
    unfold scales_nonneg; cbn; concrete_bounds.
Defined.

Lemma row_duration_positive {G : BitGenerator} (c : Configuration) (r : TrialRecord) :
  row_facts c r -> 0 < Duration_Months r.
Proof.
  intros (l & z1 & b25 & z2 & b38 & e & u & -> & Hl). cbn.
  destruct (locals_durations _ _ _ _ _ _ _ _ Hl) as (_ & _ & Hs & _ & _ & Hm).
  clear - Hs Hm. lra.
Qed.

Lemma py_max_ub (a b : Q) : b <= py_max a b.
Proof.
  unfold py_max. destruct (a ?= b) eqn:E; try apply Qle_refl.
  - apply Qeq_alt in E. rewrite E. apply Qle_refl.
  - rewrite <- Qgt_alt in E. apply Qlt_le_weak, E.
Qed.

Lemma py_max_lub (a b m : Q) : a <= m -> b <= m -> py_max a b <= m.
Proof.
  intros Ha Hb. unfold py_max. destruct (a ?= b); assumption.
Qed.

(** X8. With no scope uncertainty and a base scope of at least 100, the final
    scope of every trial lies between the base scope and the base scope
    enlarged by the change-risk level: changes only add scope. *)
Theorem scope_creep_bounds {G : BitGenerator} (c : Configuration) (g : RandomState) :
  scales_nonneg c ->
  risk_scope c == 0 ->
  0 <= risk_changes c ->
  (100 <= base_scope c)%Z ->
  exists df g',
    run_simulation c g = Ok (df, g') /\
    List.length df = Z.to_nat (n_simulations c) /\
    Forall (fun r =>
      inject_Z (base_scope c) <= Scope_SP r /\
      Scope_SP r <= inject_Z (base_scope c) * (1 + risk_changes c)) df.
Proof.
  intros Hc Hs Hch Hb. apply rows_satisfy; [exact Hc|].
  intros r (l & z1 & b25 & z2 & b38 & e & u & -> & Hl). cbn.
  unpack_facts Hl. rewrite Ffs, Fvol, Fchg.
  assert (100 <= inject_Z (base_scope c)) as Hbq
    by (change 100 with (inject_Z 100); rewrite <- Zle_Qle; exact Hb).
  set (B := inject_Z (base_scope c)) in *.
  assert (0 <= b25 * risk_changes c) as H0 by (apply Qmult_le_0_compat; lra).
  assert (0 <= (1 - b25) * risk_changes c) as H1 by (apply Qmult_le_0_compat; lra).
  assert (0 <= B * (b25 * risk_changes c)) as H2 by (apply Qmult_le_0_compat; lra).
  assert (0 <= B * ((1 - b25) * risk_changes c)) as H3 by (apply Qmult_le_0_compat; lra).
  assert (0 <= B * risk_changes c) as H4 by (apply Qmult_le_0_compat; lra).
  assert (B * (1 + (0 + risk_scope c * z1) + b25 * risk_changes c)
          == B + B * (b25 * risk_changes c)) as E by (rewrite Hs; ring).
  split.
  - eapply Qle_trans; [|apply py_max_ub]. rewrite E. lra.
  - apply py_max_lub; [|rewrite E]; lra.
Qed.

(** The same on concrete entries, run with the reference generator. *)
Lemma scope_creep_bounds_witness :
  scales_nonneg (sidebar no_scope_risk_inputs) /\
  risk_scope (sidebar no_scope_risk_inputs) == 0 /\
  0 <= risk_changes (sidebar no_scope_risk_inputs) /\
  (100 <= base_scope (sidebar no_scope_risk_inputs))%Z /\
  exists df g',
    run_simulation (G := Reference.generator) (sidebar no_scope_risk_inputs) 7%Z
    = Ok (df, g') /\
    List.length df = Z.to_nat (n_simulations (sidebar no_scope_risk_inputs)) /\
    Forall (fun r =>
      inject_Z (base_scope (sidebar no_scope_risk_inputs)) <= Scope_SP r /\
      Scope_SP r
      <= inject_Z (base_scope (sidebar no_scope_risk_inputs))
         * (1 + risk_changes (sidebar no_scope_risk_inputs))) df.
Proof.
  split; [|split; [|split; [|split]]].
  - unfold scales_nonneg; cbn; concrete_bounds.
  - reflexivity.
  - cbn; concrete_bounds.
  - cbn; lia.
  - apply (scope_creep_bounds (G := Reference.generator)
             (sidebar no_scope_risk_inputs) 7%Z).
    + unfold scales_nonneg; cbn; concrete_bounds.
    + reflexivity.
    + cbn; concrete_bounds.
    + cbn; lia.
Defined.

(** X9. With the scope, velocity and change risks at 0 every trial runs at
    velocity 20; from a base scope of 100 on, its sprints and months are the
    estimate shown in the sidebar, and below 100 the floor gives 5 sprints
    and 2.5 months whatever the base scope. *)
Theorem no_risk_matches_estimate {G : BitGenerator} (c : Configuration) (g : RandomState) :
  risk_scope c == 0 ->
  risk_velocity c == 0 ->
  risk_changes c == 0 ->
  0 <= risk_bugs c ->
  exists df g',
    run_simulation c g = Ok (df, g') /\
    List.length df = Z.to_nat (n_simulations c) /\
    Forall (fun r =>
      Velocity_SP r == 20 /\
      ((100 <= base_scope c)%Z ->
       Scope_SP r == inject_Z (base_scope c) /\
       Sprints r == estimated_sprints c /\
       Duration_Months r == estimated_months c) /\
      ((base_scope c < 100)%Z ->
       Scope_SP r == 100 /\ Sprints r == 5 /\ Duration_Months r == 5 # 2)) df.
Proof.
  intros Hs Hv Hch Hb.
  apply rows_satisfy; [unfold scales_nonneg; repeat split; lra|].
  intros r (l & z1 & b25 & z2 & b38 & e & u & -> & Hl). cbn.
  destruct (locals_durations _ _ _ _ _ _ _ _ Hl) as (_ & _ & _ & _ & _ & Hm).
  unpack_facts Hl.
  assert (velocity l == 20) as Ev.
  { rewrite Fvel, Fstd. unfold BASE_VELOCITY.
    rewrite py_max_eq_r; rewrite Hv; [ring|lra]. }
  set (B := inject_Z (base_scope c)) in *.
  assert (B * (1 + scope_volatility l + scope_change l) == B) as EB.
  { rewrite Fvol, Fchg, Hs, Hch. ring. }
  split; [exact Ev|]. split.
  - intros Hbase.
    assert (100 <= B) as Hbq
      by (unfold B; change 100 with (inject_Z 100); rewrite <- Zle_Qle; exact Hbase).
    assert (final_scope l == B) as Ef.
    { rewrite Ffs. destruct (Qlt_le_dec 100 (B * (1 + scope_volatility l + scope_change l))) as [H|H].
      - rewrite py_max_eq_r by exact H. exact EB.
      - rewrite py_max_eq_l by exact H. rewrite EB in H. lra. }
    assert (sprints l == estimated_sprints c) as Es.
    { rewrite Fspr, Ef, Ev. reflexivity. }
    split; [exact Ef|]. split; [exact Es|].
    rewrite Hm, Es. unfold estimated_months. ring.
  - intros Hbase.
    assert (B < 100) as Hbq
      by (unfold B; change 100 with (inject_Z 100); rewrite <- Zlt_Qlt; exact Hbase).
    assert (final_scope l = 100) as Ef.
    { rewrite Ffs. apply py_max_eq_l. rewrite EB. lra. }
    assert (sprints l == 5) as Es.
    { rewrite Fspr, Ef, Ev. reflexivity. }
    split; [rewrite Ef; reflexivity|]. split; [exact Es|].
    rewrite Hm, Es. reflexivity.
Qed.

(** The same on concrete entries, run with the reference generator. *)
Lemma no_risk_matches_estimate_witness :
  risk_scope (scenario_A 1000) == 0 /\
  risk_velocity (scenario_A 1000) == 0 /\
  risk_changes (scenario_A 1000) == 0 /\
  0 <= risk_bugs (scenario_A 1000) /\
  exists df g',
    run_simulation (G := Reference.generator) (scenario_A 1000) 7%Z = Ok (df, g') /\
    List.length df = Z.to_nat (n_simulations (scenario_A 1000)) /\
    Forall (fun r =>
      Velocity_SP r == 20 /\
      ((100 <= base_scope (scenario_A 1000))%Z ->
       Scope_SP r == inject_Z (base_scope (scenario_A 1000)) /\
       Sprints r == estimated_sprints (scenario_A 1000) /\
       Duration_Months r == estimated_months (scenario_A 1000)) /\
      ((base_scope (scenario_A 1000) < 100)%Z ->
       Scope_SP r == 100 /\ Sprints r == 5 /\ Duration_Months r == 5 # 2)) df.
Proof.
  split; [|split; [|split; [|split]]].
  - reflexivity.
  - reflexivity.
  - reflexivity.
  - cbn; concrete_bounds.
  - apply (no_risk_matches_estimate (G := Reference.generator) (scenario_A 1000) 7%Z).
    + reflexivity.
    + reflexivity.
    + reflexivity.
    + cbn; concrete_bounds.
Defined.

Lemma trial_loop_with_n {G : BitGenerator} (n : Z) (c : Configuration) (k : nat) :
  forall results g,
    trial_loop (with_n_simulations n c) k results g = trial_loop c k results g.
Proof.
  induction k as [|k IH]; intros results g; [reflexivity|].
  cbn [trial_loop].
  change (trial_body (with_n_simulations n c)) with (trial_body c).
  unfold bind. destruct (trial_body c g) as [[l g1]|e]; [|reflexivity].
  change (store_results (with_n_simulations n c) l) with (store_results c l).
  apply IH.
Qed.

Lemma trial_loop_app {G : BitGenerator} (c : Configuration) (n m : nat) :
  forall results g,
    trial_loop c (n + m) results g =
    bind (trial_loop c n results) (fun acc => trial_loop c m acc) g.
Proof.
  induction n as [|n IH]; intros results g; [reflexivity|].
  cbn [trial_loop Nat.add]. unfold bind.
  destruct (trial_body c g) as [[l g1]|e]; [|reflexivity].
  rewrite IH. reflexivity.
Qed.

Lemma run_simulation_with_n {G : BitGenerator} (n : Z) (c : Configuration)
    (g : RandomState) :
  run_simulation (with_n_simulations n c) g =
  bind (trial_loop c (Z.to_nat n) []) ret (seed_state 42).
Proof.
  rewrite run_simulation_seeded.
  change (n_simulations (with_n_simulations n c)) with n.
  unfold bind. now rewrite trial_loop_with_n.
Qed.

(** X10. Asking for more simulations only appends trials: the table of a run
    with n1 simulations is the first n1 rows of the table of a run with
    n2 >= n1 simulations on the same configuration. *)
Theorem more_simulations_append {G : BitGenerator} (c : Configuration) (n1 n2 : Z)
    (g1 g2 : RandomState) :
  scales_nonneg c ->
  (0 <= n1 <= n2)%Z ->
  exists df1 df2 g1' g2',
    run_simulation (with_n_simulations n1 c) g1 = Ok (df1, g1') /\
    run_simulation (with_n_simulations n2 c) g2 = Ok (df2, g2') /\
    List.length df1 = Z.to_nat n1 /\
    List.length df2 = Z.to_nat n2 /\
    df1 = firstn (Z.to_nat n1) df2.
Proof.
  intros Hc Hn.
  rewrite !run_simulation_with_n.
  replace (Z.to_nat n2) with (Z.to_nat n1 + Z.to_nat (n2 - n1))%nat by lia.
  destruct (trial_loop_ok c Hc (Z.to_nat n1) [] (seed_state 42))
    as (rows1 & ga & H1 & L1 & _).
  destruct (trial_loop_ok c Hc (Z.to_nat (n2 - n1)) rows1 ga)
    as (rows2 & gb & H2 & L2 & _).
  cbn [app] in H1.
  exists rows1, (rows1 ++ rows2), ga, gb.
  split.
  { erewrite bind_ok by exact H1. reflexivity. }
  split.
  { erewrite bind_ok; [reflexivity|].
    rewrite trial_loop_app. erewrite bind_ok by exact H1. exact H2. }
  split; [exact L1|].
  split.
  { rewrite length_app. lia. }
  rewrite <- L1. rewrite firstn_app, Nat.sub_diag, firstn_all. cbn.
  now rewrite app_nil_r.
Qed.

(** The same on concrete entries, run with the reference generator. *)
Lemma more_simulations_append_witness :
  scales_nonneg (sidebar default_inputs) /\
  (0 <= 1000 <= 5000)%Z /\
  exists df1 df2 g1' g2',
    run_simulation (G := Reference.generator)
      (with_n_simulations 1000 (sidebar default_inputs)) 1%Z = Ok (df1, g1') /\
    run_simulation (G := Reference.generator)
      (with_n_simulations 5000 (sidebar default_inputs)) 2%Z = Ok (df2, g2') /\
    List.length df1 = Z.to_nat 1000 /\
    List.length df2 = Z.to_nat 5000 /\
    df1 = firstn (Z.to_nat 1000) df2.
Proof.
  split; [|split].
  - unfold scales_nonneg; cbn; concrete_bounds.
  - lia.
  - apply (more_simulations_append (G := Reference.generator)
             (sidebar default_inputs) 1000 5000 1%Z 2%Z).
    + unfold scales_nonneg; cbn; concrete_bounds.
    + lia.
Defined.

Lemma trial_body_negative_scale {G : BitGenerator} (c : Configuration) (g : RandomState) :
  ~ scales_nonneg c -> trial_body c g = Raise ValueError.
Proof.
  intros Hn.
  destruct (trial_body_raises c g) as [(l & g' & H)|H]; [|exact H].
  exfalso. apply Hn.
  destruct (Qle_bool 0 (risk_scope c)) eqn:Es.
  2:{ unfold trial_body in H. erewrite bind_raise in H; [discriminate|].
      unfold np_random_normal. now rewrite Es. }
  apply Qle_bool_iff in Es.
  destruct (Qle_bool 0 (risk_velocity c)) eqn:Ev.
  2:{ unfold trial_body in H.
      erewrite bind_ok in H by (apply np_random_normal_ok; exact Es).
      erewrite bind_ok in H by (apply np_random_beta_ok; reflexivity).
      erewrite bind_raise in H; [discriminate|].
      unfold np_random_normal.
      destruct (Qle_bool 0 (BASE_VELOCITY * risk_velocity c)) eqn:E; [|reflexivity].
      apply Qle_bool_iff in E. unfold BASE_VELOCITY in E.
      assert (0 <= risk_velocity c) as H' by lra.
      apply Qle_bool_iff in H'. congruence. }
  apply Qle_bool_iff in Ev.
  destruct (Qle_bool 0 (risk_bugs c)) eqn:Eb.
  { apply Qle_bool_iff in Eb. now repeat split. }
  unfold trial_body in H.
  erewrite bind_ok in H by (apply np_random_normal_ok; exact Es).
  erewrite bind_ok in H by (apply np_random_beta_ok; reflexivity).
  erewrite bind_ok in H by (apply np_random_normal_ok; unfold BASE_VELOCITY; lra).
  erewrite bind_ok in H.
  2:{ apply py_div_ok.
      match goal with |- ~ py_max 5 ?x == 0 => pose proof (py_max_lb 5 x) end. lra. }
  erewrite bind_ok in H by (apply py_div_ok; unfold WORK_DAYS_PER_MONTH; lra).
  erewrite bind_ok in H by (apply np_random_beta_ok; reflexivity).
  erewrite bind_raise in H; [discriminate|].
  unfold np_random_exponential. now rewrite Eb.
Qed.

(** X11. With no simulations asked for the run returns the empty table without
    drawing; otherwise it raises [ValueError] exactly when one of the scales
    handed to [np.random] is negative. *)
Theorem run_fails_iff_negative_scale {G : BitGenerator} (c : Configuration) (g : RandomState) :
  ((n_simulations c <= 0)%Z -> run_simulation c g = Ok ([], seed_state 42)) /\
  ((0 < n_simulations c)%Z ->
   (run_simulation c g = Raise ValueError <-> ~ scales_nonneg c)).
Proof.
  split.
  - intros Hn. rewrite run_simulation_seeded.
    replace (Z.to_nat (n_simulations c)) with 0%nat by lia. reflexivity.
  - intros Hn. split.
    + intros Hr Hc.
      destruct (run_simulation_ok c g Hc) as (df & g' & H & _). congruence.
    + intros Hc. rewrite run_simulation_seeded.
      destruct (Z.to_nat (n_simulations c)) as [|k] eqn:E; [lia|].
      apply bind_raise. cbn [trial_loop]. apply bind_raise.
      now apply trial_body_negative_scale.
Qed.

(** The same on a configuration with a negative scope risk, run with the
    reference generator. *)
Lemma run_fails_iff_negative_scale_witness :
  (0 < n_simulations negative_risk_configuration)%Z /\
  ~ scales_nonneg negative_risk_configuration /\
  run_simulation (G := Reference.generator) negative_risk_configuration 7%Z
  = Raise ValueError.
Proof.
  assert (~ scales_nonneg negative_risk_configuration) as Hneg.
  { intros (H & _). cbn in H. unfold Qle in H. cbn in H. lia. }
  split; [|split].
  - reflexivity.
  - exact Hneg.
  - apply (proj2 (run_fails_iff_negative_scale (G := Reference.generator)
                    negative_risk_configuration 7%Z)).
    + reflexivity.
    + exact Hneg.
Defined.

Lemma insert_sorted_length (x : Q) (xs : list Q) :
  List.length (insert_sorted x xs) = S (List.length xs).
Proof.
  induction xs as [|y ys IH]; [reflexivity|].
  cbn. destruct (Qle_bool x y); cbn; [reflexivity|now rewrite IH].
Qed.

Lemma sort_values_length (xs : list Q) :
  List.length (sort_values xs) = List.length xs.
Proof.
  induction xs as [|x xs IH]; [reflexivity|].
  change (sort_values (x :: xs)) with (insert_sorted x (sort_values xs)).
  rewrite insert_sorted_length, IH. reflexivity.
Qed.

Lemma insert_sorted_Forall (P : Q -> Prop) (x : Q) (xs : list Q) :
  P x -> Forall P xs -> Forall P (insert_sorted x xs).
Proof.
  intros Hx Hxs. induction Hxs as [|y ys Hy Hys IH]; cbn.
  - now repeat constructor.
  - destruct (Qle_bool x y); repeat constructor; assumption.
Qed.

Lemma sort_values_Forall (P : Q -> Prop) (xs : list Q) :
  Forall P xs -> Forall P (sort_values xs).
Proof.
  induction 1 as [|x xs Hx Hxs IH]; cbn; [constructor|].
  now apply insert_sorted_Forall.
Qed.

Lemma insert_sorted_sorted (x : Q) (xs : list Q) :
  StronglySorted Qle xs -> StronglySorted Qle (insert_sorted x xs).
Proof.
  induction 1 as [|y ys Hs IH Hy]; cbn.
  - repeat constructor.
  - destruct (Qle_bool x y) eqn:E.
    + apply Qle_bool_iff in E. constructor.
      * now constructor.
      * constructor; [exact E|].
        eapply Forall_impl; [|exact Hy]. intros z Hz. lra.
    + assert (y <= x) as Hyx.
      { destruct (Qlt_le_dec x y) as [H|H]; [|exact H].
        apply Qlt_le_weak, Qle_bool_iff in H. congruence. }
      constructor; [exact IH|].
      apply insert_sorted_Forall; assumption.
Qed.

Lemma sort_values_sorted (xs : list Q) : StronglySorted Qle (sort_values xs).
Proof.
  induction xs as [|x xs IH]; cbn; [constructor|].
  now apply insert_sorted_sorted.
Qed.

Lemma sorted_nth_le (s : list Q) :
  StronglySorted Qle s ->
  forall i j, (i <= j < List.length s)%nat -> nth i s 0 <= nth j s 0.
Proof.
  induction 1 as [|x xs Hs IH Hx]; intros i j Hij; [cbn in Hij; lia|].
  destruct i as [|i], j as [|j]; cbn in *; try lia.
  - apply Qle_refl.
  - rewrite Forall_forall in Hx. apply Hx, nth_In. lia.
  - apply IH. lia.
Qed.

Lemma Forall_nth_Q (P : Q -> Prop) (s : list Q) (i : nat) :
  Forall P s -> (i < List.length s)%nat -> P (nth i s 0).
Proof.
  intros H Hi. rewrite Forall_forall in H. now apply H, nth_In.
Qed.

Section Interpolate.

Variable s : list Q.
Hypothesis s_sorted : StronglySorted Qle s.
Hypothesis s_nonempty : (0 < List.length s)%nat.

Let top : Q := inject_Z (Z.of_nat (List.length s - 1)).

Lemma floor_in_range (h : Q) :
  0 <= h -> h <= top ->
  (0 <= Qfloor h)%Z /\ (Z.to_nat (Qfloor h) <= List.length s - 1)%nat.
Proof.
  intros H0 H1.
  apply Qfloor_resp_le in H0, H1. unfold top in H1.
  rewrite Qfloor_Z in H1. change (Qfloor 0) with 0%Z in H0.
  split; lia.
Qed.

Lemma frac_range (h : Q) :
  0 <= h - inject_Z (Qfloor h) /\ h - inject_Z (Qfloor h) < 1.
Proof.
  pose proof (Qfloor_le h). pose proof (Qlt_floor h) as Hlt.
  rewrite inject_Z_plus in Hlt. change (inject_Z 1) with 1 in Hlt.
  split; lra.
Qed.

Lemma interpolate_between (h : Q) :
  0 <= h -> h <= top ->
  nth (Z.to_nat (Qfloor h)) s 0 <= interpolate s h /\
  interpolate s h <= nth (Nat.min (S (Z.to_nat (Qfloor h))) (List.length s - 1)) s 0.
Proof.
  intros H0 H1.
  destruct (floor_in_range h H0 H1) as (Hf & Hlo).
  destruct (frac_range h) as (Hfr0 & Hfr1).
  unfold interpolate.
  set (lo := Z.to_nat (Qfloor h)) in *.
  set (hi := Nat.min (S lo) (List.length s - 1)).
  set (fr := h - inject_Z (Qfloor h)) in *.
  assert (nth lo s 0 <= nth hi s 0) as Hle.
  { apply sorted_nth_le; [exact s_sorted|]. unfold hi. lia. }
  assert (0 <= (nth hi s 0 - nth lo s 0) * fr) by (apply Qmult_le_0_compat; lra).
  assert (0 <= (nth hi s 0 - nth lo s 0) * (1 - fr)) by (apply Qmult_le_0_compat; lra).
  split; lra.
Qed.

Lemma interpolate_monotone (h1 h2 : Q) :
  0 <= h1 -> h1 <= h2 -> h2 <= top ->
  interpolate s h1 <= interpolate s h2.
Proof.
  intros H0 H12 H2.
  assert (h1 <= top) as H1 by lra.
  assert (0 <= h2) as H0' by lra.
  destruct (floor_in_range h1 H0 H1) as (Hf1 & Hlo1).
  destruct (floor_in_range h2 H0' H2) as (Hf2 & Hlo2).
  pose proof (Qfloor_resp_le _ _ H12) as Hfl.
  destruct (Z.eq_dec (Qfloor h1) (Qfloor h2)) as [E|NE].
  - unfold interpolate. rewrite E.
    set (lo := Z.to_nat (Qfloor h2)) in *.
    set (hi := Nat.min (S lo) (List.length s - 1)).
    assert (nth lo s 0 <= nth hi s 0) as Hle.
    { apply sorted_nth_le; [exact s_sorted|]. unfold hi. lia. }
    assert (0 <= (nth hi s 0 - nth lo s 0) * (h2 - h1))
      by (apply Qmult_le_0_compat; lra).
    lra.
  - destruct (interpolate_between h1 H0 H1) as (_ & Hup).
    destruct (interpolate_between h2 H0' H2) as (Hdown & _).
    eapply Qle_trans; [exact Hup|]. eapply Qle_trans; [|exact Hdown].
    apply sorted_nth_le; [exact s_sorted|]. lia.
Qed.

End Interpolate.

Lemma Qfloor_unique (x : Q) (z : Z) :
  inject_Z z <= x -> x < inject_Z (z + 1) -> Qfloor x = z.
Proof.
  intros Hlo Hhi.
  pose proof (Qfloor_resp_le _ _ Hlo) as H1. rewrite Qfloor_Z in H1.
  pose proof (Qfloor_le x) as H2.
  assert (inject_Z (Qfloor x) < inject_Z (z + 1)) as H3 by lra.
  rewrite <- Zlt_Qlt in H3. lia.
Qed.

Lemma half_of_even (k : nat) : (2 * k / 2 = k)%nat.
Proof. symmetry. apply (Nat.div_unique _ 2 k 0); lia. Qed.

Lemma half_of_odd (k : nat) : ((2 * k + 1) / 2 = k)%nat.
Proof. symmetry. apply (Nat.div_unique _ 2 k 1); lia. Qed.

Lemma Qfloor_shift (z : Z) (d x : Q) :
  x == inject_Z z + d -> 0 <= d -> d < 1 -> Qfloor x = z.
Proof.
  intros Hx H0 H1. apply Qfloor_unique.
  - lra.
  - rewrite inject_Z_plus. change (inject_Z 1) with 1. lra.
Qed.

Lemma median_is_half_quantile (xs : list Q) :
  xs <> [] ->
  exists m p, median xs = Some m /\ quantile (1 # 2) xs = Some p /\ m == p.
Proof.
  intros Hne. destruct xs as [|x0 xs']; [contradiction|].
  set (xs := x0 :: xs') in *.
  unfold median, quantile. fold xs.
  set (s := sort_values xs). set (n := List.length xs).
  assert (1 <= n)%nat as Hn by (unfold n, xs; cbn; lia).
  assert (List.length s = n) as Hlen by apply sort_values_length.
  unfold interpolate. rewrite Hlen.
  destruct (Nat.even n) eqn:E.
  - apply Nat.even_spec in E. destruct E as (k & Hk).
    assert (Z.of_nat (n - 1) = 2 * Z.of_nat (k - 1) + 1)%Z as Hz by lia.
    set (z := Z.of_nat (k - 1)) in *.
    assert (inject_Z (Z.of_nat (n - 1)) * (1 # 2) == inject_Z z + (1 # 2)) as Hh.
    { rewrite Hz, inject_Z_plus, inject_Z_mult.
      change (inject_Z 2) with 2. change (inject_Z 1) with 1. field. }
    assert (Qfloor (inject_Z (Z.of_nat (n - 1)) * (1 # 2)) = z) as Hf.
    { apply (Qfloor_shift z (1 # 2)); [exact Hh|discriminate|reflexivity]. }
    rewrite Hf.
    replace (Z.to_nat z) with (n / 2 - 1)%nat by (unfold z; rewrite Hk, half_of_even; lia).
    replace (Nat.min (S (n / 2 - 1)) (n - 1)) with (n / 2)%nat
      by (rewrite Hk, half_of_even; lia).
    eexists _, _. split; [reflexivity|]. split; [reflexivity|].
    rewrite Hh. field.
  - assert (Nat.odd n = true) as O by (unfold Nat.odd; now rewrite E).
    apply Nat.odd_spec in O. destruct O as (k & Hk).
    assert (Z.of_nat (n - 1) = 2 * Z.of_nat k)%Z as Hz by lia.
    set (z := Z.of_nat k) in *.
    assert (inject_Z (Z.of_nat (n - 1)) * (1 # 2) == inject_Z z) as Hh.
    { rewrite Hz, inject_Z_mult. change (inject_Z 2) with 2. field. }
    assert (Qfloor (inject_Z (Z.of_nat (n - 1)) * (1 # 2)) = z) as Hf.
    { apply (Qfloor_shift z 0); [rewrite Hh; ring|discriminate|reflexivity]. }
    rewrite Hf.
    replace (Z.to_nat z) with (n / 2)%nat.
    2:{ unfold z. rewrite Hk, half_of_odd; lia. }
    eexists _, _. split; [reflexivity|]. split; [reflexivity|].
    rewrite Hh. ring.
Qed.

Lemma quantile_defined (q : Q) (xs : list Q) :
  xs <> [] ->
  quantile q xs =
  Some (interpolate (sort_values xs) (inject_Z (Z.of_nat (List.length xs - 1)) * q)).
Proof.
  intros Hne. destruct xs; [contradiction|reflexivity].
Qed.

Lemma position_range (n : nat) (q : Q) :
  0 <= q -> q <= 1 ->
  0 <= inject_Z (Z.of_nat n) * q /\ inject_Z (Z.of_nat n) * q <= inject_Z (Z.of_nat n).
Proof.
  intros H0 H1.
  assert (0 <= inject_Z (Z.of_nat n)) as Hn by (unfold Qle; cbn; lia).
  assert (0 <= inject_Z (Z.of_nat n) * q) by (apply Qmult_le_0_compat; assumption).
  assert (0 <= inject_Z (Z.of_nat n) * (1 - q)) by (apply Qmult_le_0_compat; lra).
  split; lra.
Qed.

Lemma quantile_monotone (q1 q2 : Q) (xs : list Q) :
  xs <> [] -> 0 <= q1 -> q1 <= q2 -> q2 <= 1 ->
  exists p1 p2, quantile q1 xs = Some p1 /\ quantile q2 xs = Some p2 /\ p1 <= p2.
Proof.
  intros Hne H0 H12 H2.
  rewrite !quantile_defined by exact Hne.
  eexists _, _. split; [reflexivity|]. split; [reflexivity|].
  assert (0 < List.length (sort_values xs))%nat as Hpos.
  { rewrite sort_values_length. destruct xs; [contradiction|cbn; lia]. }
  set (n := (List.length xs - 1)%nat).
  assert (0 <= inject_Z (Z.of_nat n)) as Hn by (unfold Qle; cbn; lia).
  destruct (position_range n q1 H0 ltac:(lra)) as (Ha & _).
  destruct (position_range n q2 ltac:(lra) H2) as (_ & Hb).
  apply interpolate_monotone.
  - apply sort_values_sorted.
  - exact Hpos.
  - exact Ha.
  - assert (0 <= inject_Z (Z.of_nat n) * (q2 - q1)) by (apply Qmult_le_0_compat; lra).
    lra.
  - rewrite sort_values_length. exact Hb.
Qed.

Lemma quantile_above (a q : Q) (xs : list Q) :
  xs <> [] -> 0 <= q -> q <= 1 ->
  Forall (fun x => a < x) xs ->
  exists p, quantile q xs = Some p /\ a < p.
Proof.
  intros Hne H0 H1 Hall.
  rewrite quantile_defined by exact Hne.
  eexists. split; [reflexivity|].
  destruct (position_range (List.length xs - 1) q H0 H1) as (Ha & Hb).
  assert (inject_Z (Z.of_nat (List.length xs - 1)) * q
          <= inject_Z (Z.of_nat (List.length (sort_values xs) - 1))) as Hb'
    by (rewrite sort_values_length; exact Hb).
  clear Hb. rename Hb' into Hb.
  assert (0 < List.length (sort_values xs))%nat as Hpos.
  { rewrite sort_values_length. destruct xs; [contradiction|cbn; lia]. }
  destruct (interpolate_between (sort_values xs) (sort_values_sorted xs) Hpos _ Ha Hb)
    as (Hd & _).
  destruct (floor_in_range (sort_values xs) Hpos _ Ha Hb) as (_ & Hlo).
  pose proof (Forall_nth_Q _ _ (Z.to_nat (Qfloor (inject_Z (Z.of_nat (List.length xs - 1)) * q)))
                (sort_values_Forall _ _ Hall) ltac:(lia)) as Hx.
  cbv beta in Hx. lra.
Qed.

Lemma median_le_quantile (q : Q) (xs : list Q) :
  xs <> [] -> 1 # 2 <= q -> q <= 1 ->
  exists m p, median xs = Some m /\ quantile q xs = Some p /\ m <= p.
Proof.
  intros Hne H0 H1.
  destruct (median_is_half_quantile xs Hne) as (m & p0 & Hm & Hp0 & E).
  destruct (quantile_monotone (1 # 2) q xs Hne ltac:(discriminate) H0 H1)
    as (p1 & p2 & Hp1 & Hp2 & Hle).
  assert (p1 = p0) as -> by congruence.
  exists m, p2. split; [exact Hm|]. split; [exact Hp2|]. now rewrite E.
Qed.

Lemma median_above (a : Q) (xs : list Q) :
  xs <> [] ->
  Forall (fun x => a < x) xs ->
  exists m, median xs = Some m /\ a < m.
Proof.
  intros Hne Hall.
  destruct (median_is_half_quantile xs Hne) as (m & p & Hm & Hp & E).
  destruct (quantile_above a (1 # 2) xs Hne ltac:(discriminate) ltac:(discriminate) Hall)
    as (p' & Hp' & Ha).
  assert (p' = p) as -> by congruence.
  exists m. split; [exact Hm|]. now rewrite E.
Qed.

Lemma map_nonempty {A B : Type} (f : A -> B) (l : list A) : l <> [] -> map f l <> [].
Proof. destruct l; [contradiction|discriminate]. Qed.

Lemma length_positive_nonempty {A : Type} (l : list A) (n : Z) :
  List.length l = Z.to_nat n -> (0 < n)%Z -> l <> [].
Proof. intros H Hn ->. cbn in H. lia. Qed.

Lemma Forall_map_iff {A B : Type} (f : A -> B) (P : B -> Prop) (l : list A) :
  Forall (fun x => P (f x)) l -> Forall P (map f l).
Proof. intros H. now apply Forall_map. Qed.

(** X12. For a run of at least one trial the median duration and the P90 duration
    are both defined, the median is positive and the P90 is at least the
    median. *)
Theorem reported_durations {G : BitGenerator} (c : Configuration) (g : RandomState) :
  scales_nonneg c ->
  (0 < n_simulations c)%Z ->
  exists df g' m p,
    run_simulation c g = Ok (df, g') /\
    median_duration (report df) = Some m /\
    p90_duration (report df) = Some p /\
    0 < m /\ m <= p.
Proof.
  intros Hc Hn.
  destruct (run_simulation_ok c g Hc) as (df & g' & Hrun & Hlen & Hall).
  pose proof (length_positive_nonempty df _ Hlen Hn) as Hne.
  pose proof (map_nonempty Duration_Months df Hne) as Hne'.
  assert (Forall (fun x => 0 < x) (map Duration_Months df)) as Hpos.
  { apply Forall_map_iff. eapply Forall_impl; [|exact Hall].
    intros r Hr. exact (row_duration_positive c r Hr). }
  destruct (median_le_quantile (9 # 10) _ Hne' ltac:(discriminate) ltac:(discriminate))
    as (m & p & Hm & Hp & Hle).
  destruct (median_above 0 _ Hne' Hpos) as (m' & Hm' & H0).
  assert (m' = m) as -> by congruence.
  exists df, g', m, p. cbn [report median_duration p90_duration].
  repeat split; assumption.
Qed.

(** The same on concrete entries, run with the reference generator. *)
Lemma reported_durations_witness :
  scales_nonneg (sidebar default_inputs) /\
  (0 < n_simulations (sidebar default_inputs))%Z /\
  exists df g' m p,
    run_simulation (G := Reference.generator) (sidebar default_inputs) 7%Z = Ok (df, g') /\
    median_duration (report df) = Some m /\
    p90_duration (report df) = Some p /\
    0 < m /\ m <= p.
Proof.
  split; [|split].
  - unfold scales_nonneg; cbn; concrete_bounds.
  - reflexivity.
  - apply (reported_durations (G := Reference.generator) (sidebar default_inputs) 7%Z).
    + unfold scales_nonneg; cbn; concrete_bounds.
    + reflexivity.
Defined.

(** X13. Under non-negative inputs the median total cost of ownership and its P80
    are both defined for a run of at least one trial, with
    0 <= median <= P80. *)
Theorem reported_tco {G : BitGenerator} (c : Configuration) (g : RandomState) :
  scales_nonneg c ->
  nonneg_inputs c ->
  (0 < n_simulations c)%Z ->
  exists df g' m p,
    run_simulation c g = Ok (df, g') /\
    median_tco (report df) = Some m /\
    p80_tco (report df) = Some p /\
    0 <= m /\ m <= p.
Proof.
  intros Hc Hi Hn.
  destruct (run_simulation_ok c g Hc) as (df & g' & Hrun & Hlen & Hall).
  pose proof (length_positive_nonempty df _ Hlen Hn) as Hne.
  pose proof (map_nonempty TCO_Total df Hne) as Hne'.
  assert (Forall (fun x => 0 <= x) (map TCO_Total df)) as Hpos.
  { apply Forall_map_iff. eapply Forall_impl; [|exact Hall].
    intros r Hr.
    destruct (row_costs_nonneg c r Hc Hi Hr) as (_ & _ & _ & _ & (H0 & H1) & _). lra. }
  destruct (median_le_quantile (8 # 10) _ Hne' ltac:(discriminate) ltac:(discriminate))
    as (m & p & Hm & Hp & Hle).
  destruct (median_is_half_quantile _ Hne') as (m' & q & Hm' & Hq & E).
  assert (m' = m) as -> by congruence.
  assert (0 <= m) as H0.
  { rewrite E. rewrite quantile_defined in Hq by exact Hne'.
    injection Hq as <-.
    destruct (position_range (List.length (map TCO_Total df) - 1) (1 # 2)
                ltac:(discriminate) ltac:(discriminate)) as (Ha & Hb).
    assert (0 < List.length (sort_values (map TCO_Total df)))%nat as Hl.
    { rewrite sort_values_length. destruct (map TCO_Total df); [contradiction|cbn; lia]. }
    assert (inject_Z (Z.of_nat (List.length (map TCO_Total df) - 1)) * (1 # 2)
            <= inject_Z (Z.of_nat (List.length (sort_values (map TCO_Total df)) - 1))) as Hb'
      by (rewrite sort_values_length; exact Hb).
    destruct (interpolate_between _ (sort_values_sorted _) Hl _ Ha Hb') as (Hd & _).
    destruct (floor_in_range _ Hl _ Ha Hb') as (_ & Hlo).
    pose proof (Forall_nth_Q _ _
                  (Z.to_nat (Qfloor (inject_Z (Z.of_nat (List.length (map TCO_Total df) - 1)) * (1 # 2))))
                  (sort_values_Forall _ _ Hpos) ltac:(lia)) as Hx.
    cbv beta in Hx. lra. }
  exists df, g', m, p. cbn [report median_tco p80_tco].
  repeat split; assumption.
Qed.

(** The same on concrete entries, run with the reference generator. *)
Lemma reported_tco_witness :
  scales_nonneg (sidebar default_inputs) /\
  nonneg_inputs (sidebar default_inputs) /\
  (0 < n_simulations (sidebar default_inputs))%Z /\
  exists df g' m p,
    run_simulation (G := Reference.generator) (sidebar default_inputs) 7%Z = Ok (df, g') /\
    median_tco (report df) = Some m /\
    p80_tco (report df) = Some p /\
    0 <= m /\ m <= p.
Proof.
  split; [|split; [|split]].
  - unfold scales_nonneg; cbn; concrete_bounds.
  - unfold nonneg_inputs; cbn; concrete_bounds.
  - reflexivity.
  - apply (reported_tco (G := Reference.generator) (sidebar default_inputs) 7%Z).
    + unfold scales_nonneg; cbn; concrete_bounds.
    + unfold nonneg_inputs; cbn; concrete_bounds.
    + reflexivity.
Defined.

Lemma filter_all {A : Type} (f : A -> bool) (l : list A) :
  Forall (fun x => f x = true) l -> filter f l = l.
Proof.
  induction 1 as [|x l Hx Hl IH]; [reflexivity|].
  cbn. now rewrite Hx, IH.
Qed.

Lemma filter_none {A : Type} (f : A -> bool) (l : list A) :
  Forall (fun x => f x = false) l -> filter f l = [].
Proof.
  induction 1 as [|x l Hx Hl IH]; [reflexivity|].
  cbn. now rewrite Hx, IH.
Qed.

Lemma filter_length_bound {A : Type} (f : A -> bool) (l : list A) :
  (List.length (filter f l) <= List.length l)%nat.
Proof.
  induction l as [|x l IH]; [cbn; lia|].
  cbn. destruct (f x); cbn; lia.
Qed.

Lemma profit_test_true (r : TrialRecord) :
  negb (Qle_bool (Profit r) 0) = true <-> 0 < Profit r.
Proof.
  rewrite negb_true_iff. split.
  - intros H. destruct (Qlt_le_dec 0 (Profit r)) as [Hlt|Hle]; [exact Hlt|].
    apply Qle_bool_iff in Hle. congruence.
  - intros H. destruct (Qle_bool (Profit r) 0) eqn:E; [|reflexivity].
    apply Qle_bool_iff in E. lra.
Qed.

(** X14. For a frame with at least one row the chance of profit is a
    percentage: it lies between 0 and 100, is 100 when every trial made a
    profit and 0 when none did. *)
Theorem chance_of_profit_is_percentage (df : list TrialRecord) :
  df <> [] ->
  exists v,
    chance_of_profit df = Some v /\
    0 <= v /\ v <= 100 /\
    (Forall (fun r => 0 < Profit r) df -> v == 100) /\
    (Forall (fun r => Profit r <= 0) df -> v == 0).
Proof.
  intros Hne. destruct df as [|r0 df']; [contradiction|].
  set (df := r0 :: df') in *.
  unfold chance_of_profit. fold df.
  set (wins := filter (fun r => negb (Qle_bool (Profit r) 0)) df).
  set (w := inject_Z (Z.of_nat (List.length wins))).
  set (n := inject_Z (Z.of_nat (List.length df))).
  assert (0 < n) as Hn by (unfold n, Qlt, df; cbn; lia).
  assert (0 <= w) as Hw0 by (unfold w, Qle; cbn; lia).
  assert (w <= n) as Hwn.
  { unfold w, n. rewrite <- Zle_Qle. apply inj_le, filter_length_bound. }
  eexists. split; [reflexivity|].
  assert (0 <= w / n) as H0 by (apply Qle_shift_div_l; lra).
  assert (w / n <= 1) as H1 by (apply Qle_shift_div_r; lra).
  split; [lra|]. split; [lra|]. split.
  - intros Hall.
    assert (wins = df) as E.
    { apply filter_all. eapply Forall_impl; [|exact Hall].
      intros r Hr. now apply profit_test_true. }
    unfold w. rewrite E. fold n. field. lra.
  - intros Hall.
    assert (wins = []) as E.
    { apply filter_none. eapply Forall_impl; [|exact Hall].
      intros r Hr. cbv beta. apply Qle_bool_iff in Hr. now rewrite Hr. }
    unfold w. rewrite E. cbn. field. lra.
Qed.

(** The same on a frame of two rows, one with a profit and one with a loss. *)
Lemma chance_of_profit_is_percentage_witness :
  [profit_row; loss_row] <> [] /\
  exists v,
    chance_of_profit [profit_row; loss_row] = Some v /\
    0 <= v /\ v <= 100 /\
    (Forall (fun r => 0 < Profit r) [profit_row; loss_row] -> v == 100) /\
    (Forall (fun r => Profit r <= 0) [profit_row; loss_row] -> v == 0).
Proof.
  split.
  - discriminate.
  - apply (chance_of_profit_is_percentage [profit_row; loss_row]). discriminate.
Defined.

Lemma sum_zero (xs : list Q) : Forall (fun x => x == 0) xs -> column_sum xs == 0.
Proof.
  induction 1 as [|x xs Hx Hxs IH]; [reflexivity|].
  cbn. fold (column_sum xs). rewrite Hx, IH. reflexivity.
Qed.

Lemma sum_constant (v : Q) (xs : list Q) :
  Forall (fun x => x == v) xs ->
  column_sum xs == inject_Z (Z.of_nat (List.length xs)) * v.
Proof.
  induction 1 as [|x xs Hx Hxs IH]; [cbn; ring|].
  cbn [column_sum fold_right List.length]. fold (column_sum xs).
  rewrite Hx, IH, Nat2Z.inj_succ. unfold Z.succ. rewrite inject_Z_plus.
  change (inject_Z 1) with 1. ring.
Qed.

Lemma mean_constant (v : Q) (xs : list Q) :
  xs <> [] -> Forall (fun x => x == v) xs -> column_mean xs == v.
Proof.
  intros Hne Hall. unfold column_mean. rewrite (sum_constant v xs Hall).
  assert (0 < inject_Z (Z.of_nat (List.length xs))) as Hn.
  { destruct xs; [contradiction|]. unfold Qlt; cbn; lia. }
  field. lra.
Qed.

Lemma codeviation_constant (v : Q) (ys : list Q) :
  Forall (fun y => y == v) ys -> codeviation ys ys == 0.
Proof.
  intros Hall. unfold codeviation.
  destruct ys as [|y0 ys']; [reflexivity|].
  set (ys := y0 :: ys') in *.
  assert (column_mean ys == v) as Hm by (apply mean_constant; [discriminate|exact Hall]).
  set (m := column_mean ys) in *.
  apply sum_zero.
  clearbody m. clear - Hall Hm.
  induction Hall as [|y l Hy Hl IH]; [constructor|].
  cbn. constructor; [|exact IH].
  cbn. rewrite Hy, Hm. ring.
Qed.

Lemma abs_corr_exceeds_constant (t v : Q) (xs ys : list Q) :
  Forall (fun y => y == v) ys -> abs_corr_exceeds t xs ys = false.
Proof.
  intros Hall. unfold abs_corr_exceeds.
  assert (codeviation xs xs * codeviation ys ys == 0) as E
    by (rewrite (codeviation_constant v ys Hall); ring).
  apply Qeq_bool_iff in E. now rewrite E.
Qed.

Lemma top_risks_of_rows {G : BitGenerator} (c : Configuration) (df : list TrialRecord) :
  Forall (row_facts c) df -> top_risks df = [].
Proof.
  intros Hall. unfold top_risks, risk_columns. cbn [filter snd].
  rewrite (abs_corr_exceeds_constant _ (risk_bugs c)).
  2:{ apply Forall_map_iff. eapply Forall_impl; [|exact Hall].
      intros r (l & _ & _ & _ & _ & _ & _ & -> & _). reflexivity. }
  rewrite (abs_corr_exceeds_constant _ (risk_scope c)).
  2:{ apply Forall_map_iff. eapply Forall_impl; [|exact Hall].
      intros r (l & _ & _ & _ & _ & _ & _ & -> & _). reflexivity. }
  rewrite (abs_corr_exceeds_constant _ (risk_velocity c)).
  2:{ apply Forall_map_iff. eapply Forall_impl; [|exact Hall].
      intros r (l & _ & _ & _ & _ & _ & _ & -> & _). reflexivity. }
  rewrite (abs_corr_exceeds_constant _ (risk_changes c)).
  2:{ apply Forall_map_iff. eapply Forall_impl; [|exact Hall].
      intros r (l & _ & _ & _ & _ & _ & _ & -> & _). reflexivity. }
  reflexivity.
Qed.

(** X15. No risk is ever listed as highest impact: the four risk columns hold the
    configured level in every row of a run, so their correlation with the
    total cost is undefined and the test against 0.2 fails. *)
Theorem no_highest_impact_risk {G : BitGenerator} (c : Configuration) (g : RandomState) :
  scales_nonneg c ->
  exists df g',
    run_simulation c g = Ok (df, g') /\
    List.length df = Z.to_nat (n_simulations c) /\
    Forall (fun r =>
      Risk_Scope r = risk_scope c /\ Risk_Velocity r = risk_velocity c /\
      Risk_Bugs r = risk_bugs c /\ Risk_Changes r = risk_changes c) df /\
    highest_impact (report df) = [].
Proof.
  intros Hc.
  destruct (run_simulation_ok c g Hc) as (df & g' & Hrun & Hlen & Hall).
  exists df, g'. split; [exact Hrun|]. split; [exact Hlen|]. split.
  - eapply Forall_impl; [|exact Hall].
    intros r (l & _ & _ & _ & _ & _ & _ & -> & _). now repeat split.
  - cbn [report highest_impact]. now apply (top_risks_of_rows c).
Qed.

(** The same on concrete entries, run with the reference generator. *)
Lemma no_highest_impact_risk_witness :
  scales_nonneg (sidebar default_inputs) /\
  exists df g',
    run_simulation (G := Reference.generator) (sidebar default_inputs) 7%Z = Ok (df, g') /\
    List.length df = Z.to_nat (n_simulations (sidebar default_inputs)) /\
    Forall (fun r =>
      Risk_Scope r = risk_scope (sidebar default_inputs) /\
      Risk_Velocity r = risk_velocity (sidebar default_inputs) /\
      Risk_Bugs r = risk_bugs (sidebar default_inputs) /\
      Risk_Changes r = risk_changes (sidebar default_inputs)) df /\
    highest_impact (report df) = [].
Proof.
  split.
  - unfold scales_nonneg; cbn; concrete_bounds.
  - apply (no_highest_impact_risk (G := Reference.generator) (sidebar default_inputs) 7%Z).
    unfold scales_nonneg; cbn; concrete_bounds.
Defined.

(** X7. Without the managed service and with a positive daily rate every trial
    has a positive one-off cost and makes a profit. *)
Theorem always_profitable_without_managed_service {G : BitGenerator}
    (c : Configuration) (g : RandomState) :
  scales_nonneg c ->
  nonneg_inputs c ->
  (0 < daily_rate c)%Z ->
  include_managed_service c = false ->
  exists df g',
    run_simulation c g = Ok (df, g') /\
    List.length df = Z.to_nat (n_simulations c) /\
    Forall (fun r => 0 < TCO_OneOff r /\ 0 < Profit r) df.
Proof.
  intros Hc Hi Hrate Hoff. apply rows_satisfy; [exact Hc|].
  intros r Hr.
  destruct (row_costs_nonneg c r Hc Hi Hr) as (_ & (Hrw & _) & Hcl & _).
  destruct Hr as (l & z1 & b25 & z2 & b38 & e & u & -> & Hl). cbn in *.
  destruct (locals_durations _ _ _ _ _ _ _ _ Hl) as (_ & _ & Hs & _ & Hd & _).
  pose proof (locals_labor _ _ _ _ _ _ _ _ Hl) as Hlab.
  destruct (locals_profit _ _ _ _ _ _ _ _ Hl) as (_ & Epro).
  assert (0 < labor_cost l) as Hl0.
  { rewrite Hlab. apply Qmult_lt_0_compat; [now apply inject_Z_pos|].
    clear - Hs Hd. lra. }
  assert (0 < tco_one_off l) as Hone.
  { rewrite (tf_tco_one_off _ _ _ _ _ _ _ _ Hl). clear - Hl0 Hrw Hcl. lra. }
  split; [exact Hone|].
  rewrite Epro. unfold effective_pct. rewrite Hoff.
  assert (tco_one_off l * ((1 # 5) - 0 * duration_months l / 12)
          == (1 # 5) * tco_one_off l) as -> by field.
  clear - Hone. lra.
Qed.

(** The same on concrete entries, run with the reference generator. *)
Lemma always_profitable_without_managed_service_witness :
  scales_nonneg (scenario_A 1000) /\
  nonneg_inputs (scenario_A 1000) /\
  (0 < daily_rate (scenario_A 1000))%Z /\
  include_managed_service (scenario_A 1000) = false /\
  exists df g',
    run_simulation (G := Reference.generator) (scenario_A 1000) 7%Z = Ok (df, g') /\
    List.length df = Z.to_nat (n_simulations (scenario_A 1000)) /\
    Forall (fun r => 0 < TCO_OneOff r /\ 0 < Profit r) df.
Proof.
  split; [|split; [|split; [|split]]].
  - unfold scales_nonneg; cbn; concrete_bounds.
  - unfold nonneg_inputs; cbn; concrete_bounds.
  - reflexivity.
  - reflexivity.
  - apply (always_profitable_without_managed_service (G := Reference.generator)
             (scenario_A 1000) 7%Z).
    + unfold scales_nonneg; cbn; concrete_bounds.
    + unfold nonneg_inputs; cbn; concrete_bounds.
    + reflexivity.
    + reflexivity.
Defined.

(** X4. On entries the widgets admit: with the cloud box unticked no trial has a
    cloud cost and the one-off cost is labor plus rework; with it ticked every
    trial pays at least 500 for each month, whichever entry is the larger. *)
Theorem cloud_box {G : BitGenerator} (w : WidgetInputs) (g : RandomState) :
  widgets_admit w = true ->
  exists df g',
    run_simulation (sidebar w) g = Ok (df, g') /\
    List.length df = Z.to_nat (in_n_simulations w) /\
    Forall (fun r =>
      (in_use_cloud w = false ->
       Cloud_Cost r == 0 /\ TCO_OneOff r == Labor_Cost r + Rework_Cost r) /\
      (in_use_cloud w = true ->
       500 * Duration_Months r <= Cloud_Cost r)) df.
Proof.
  intros Hw.
  pose proof (risk_levels_unit_scales _ (widgets_admit_risk_levels w Hw)) as Hc.
  apply (rows_satisfy _ (sidebar w) g Hc).
  intros r Hr.
  pose proof (row_duration_positive _ r Hr) as Hmon.
  destruct Hr as (l & z1 & b25 & z2 & b38 & e & u & -> & Hl). cbn in Hmon |- *.
  destruct (locals_monthly_cloud _ _ _ _ _ _ _ _ Hl) as (Hup & Hdown).
  pose proof (tf_cloud_cost _ _ _ _ _ _ _ _ Hl) as Fcc.
  pose proof (tf_tco_one_off _ _ _ _ _ _ _ _ Hl) as Fone.
  split.
  - intros Hoff. cbn [sidebar cloud_min cloud_max] in Hup. rewrite Hoff in Hup.
    destruct (Hup ltac:(lia)) as (H0 & H1).
    assert (cloud_cost l == 0) as E.
    { rewrite Fcc. assert (monthly_cloud l == 0) as -> by (apply Qle_antisym; assumption).
      ring. }
    split; [exact E|]. rewrite Fone, E. ring.
  - intros Hon.
    assert ((500 <= in_cloud_min w)%Z /\ (1000 <= in_cloud_max w)%Z) as (Hmin & Hmax).
    { unfold widgets_admit in Hw. rewrite Hon in Hw.
      rewrite !andb_true_iff in Hw.
      repeat match goal with H : _ /\ _ |- _ => destruct H end.
      unfold number_input in *.
      repeat match goal with
             | H : (_ && _)%bool = true |- _ => apply andb_true_iff in H; destruct H
             end.
      split; now apply Z.leb_le. }
    cbn [sidebar cloud_min cloud_max] in Hup, Hdown. rewrite Hon in Hup, Hdown.
    assert (500 <= inject_Z (in_cloud_min w)) as Qmin
      by (change 500 with (inject_Z 500); now rewrite <- Zle_Qle).
    assert (500 <= inject_Z (in_cloud_max w)) as Qmax
      by (change 500 with (inject_Z 500); rewrite <- Zle_Qle; lia).
    assert (500 <= monthly_cloud l) as Hm.
    { destruct (Z.le_ge_cases (in_cloud_min w) (in_cloud_max w)) as [H|H].
      - destruct (Hup H) as (H0 & _). lra.
      - destruct (Hdown H) as (H0 & _). lra. }
    rewrite Fcc. apply Qmult_le_compat_r; [exact Hm|]. lra.
Qed.

(** The same on concrete entries, run with the reference generator. *)
Lemma cloud_box_witness :
  widgets_admit reversed_cloud_inputs = true /\
  exists df g',
    run_simulation (G := Reference.generator) (sidebar reversed_cloud_inputs) 7%Z
    = Ok (df, g') /\
    List.length df = Z.to_nat (in_n_simulations reversed_cloud_inputs) /\
    Forall (fun r =>
      (in_use_cloud reversed_cloud_inputs = false ->
       Cloud_Cost r == 0 /\ TCO_OneOff r == Labor_Cost r + Rework_Cost r) /\
      (in_use_cloud reversed_cloud_inputs = true ->
       500 * Duration_Months r <= Cloud_Cost r)) df.
Proof.
  split.
  - reflexivity.
  - apply (cloud_box (G := Reference.generator) reversed_cloud_inputs 7%Z).
    reflexivity.
Defined.
